(** * MISRA Smart Fixer: the analysis-report-to-prompt pipeline of [app.py]

    A shallow embedding of [app.py] (cppcheck report parser, prompt builder
    and fix pipeline) together with the properties of it that the
    specification states.

    Python [str] values are modelled as [string], the sequence of the bytes
    of their UTF-8 encoding.  A Python value that may be [None] is an
    [option].  The external collaborators (the [cppcheck] process, the XML
    parser, the llama.cpp runtime, W&B, the operating system) are the fields
    of a record [World]; the file system and the record of the calls made to
    the collaborators are threaded explicitly through a small state and
    exception monad.

    What the embedding takes for granted: an uploaded file object has a
    [str] for its [name], and a path of the file system reads, in text
    mode, as the text stored for it; the collaborators raise instances of
    [Exception] only; creating and writing a temporary file succeeds; the
    call of [subprocess.run] returns once the process has ended, and the
    process touches nothing but its standard error; [print] does not
    fail.  Reading the report back may fail: [ET.parse] raises whatever the
    world says, a [ParseError] or something else. *)

From stdpp Require Import base list strings pretty gmap.
From Stdlib Require Import Ascii String ZArith.

Local Open Scope string_scope.
Local Open Scope list_scope.

#[local] Set Warnings "-register-all".

(** ** Python string operations used by [app.py] *)

Module Py.

(** The line feed, written [\n] in the source. *)
Definition LF : ascii := "010"%char.
Definition nl : string := String LF "".

(** [s.endswith(suffix)]: some tail of [s] is [suffix]. *)
Fixpoint endswith (s suffix : string) : bool :=
  if String.eqb s suffix then true
  else match s with
       | EmptyString => false
       | String _ s' => endswith s' suffix
       end.

(** [sub in s] on strings: [sub] is a prefix of some tail of [s]. *)
Fixpoint contains (sub s : string) : bool :=
  if String.prefix sub s then true
  else match s with
       | EmptyString => false
       | String _ s' => contains sub s'
       end.

(** The characters [str.strip()] removes, among those below 128: tab, line
    feed, vertical tab, form feed, carriage return, the four separators
    [0x1c]..[0x1f] and the space. *)
Definition isspace (a : ascii) : bool :=
  let n := nat_of_ascii a in
  (((9 <=? n) && (n <=? 13)) || ((28 <=? n) && (n <=? 32)))%nat.

Fixpoint lstrip (s : string) : string :=
  match s with
  | EmptyString => EmptyString
  | String a s' => if isspace a then lstrip s' else s
  end.

Fixpoint rstrip (s : string) : string :=
  match s with
  | EmptyString => EmptyString
  | String a s' =>
      match rstrip s' with
      | EmptyString => if isspace a then EmptyString else String a EmptyString
      | r => String a r
      end
  end.

(** [s.strip()] *)
Definition strip (s : string) : string := rstrip (lstrip s).

(** [sep.join(parts)] *)
Definition join (sep : string) (parts : list string) : string :=
  String.concat sep parts.

(** [s.split(sep)] for a one-character separator. *)
Fixpoint split (sep : ascii) (s : string) : list string :=
  match s with
  | EmptyString => [EmptyString]
  | String a s' =>
      if Ascii.eqb a sep then EmptyString :: split sep s'
      else match split sep s' with
           | [] => [String a EmptyString]
           | p :: ps => String a p :: ps
           end
  end.

(** What an f-string field prints for a value that may be [None]. *)
Definition format (v : option string) : string :=
  match v with
  | Some s => s
  | None => "None"
  end.

(** [not s] for a string: the empty string is the only falsy one. *)
Definition falsy (s : string) : bool :=
  match s with
  | EmptyString => true
  | _ => false
  end.

End Py.

(** ** The report of the analyzer: [xml.etree.ElementTree] elements *)

Module ET.

Inductive Element : Type :=
  mkElement (tag : string) (attrib : gmap string string) (children : list Element).

Definition tag (e : Element) : string :=
  match e with mkElement t _ _ => t end.
Definition attrib (e : Element) : gmap string string :=
  match e with mkElement _ a _ => a end.
Definition children (e : Element) : list Element :=
  match e with mkElement _ _ c => c end.

(** [e.get(key)]: the attribute, or [None]. *)
Definition get (e : Element) (key : string) : option string :=
  attrib e !! key.

(** [e.iter()]: the element and all its descendants, in document order. *)
Fixpoint iter (e : Element) : list Element :=
  match e with
  | mkElement _ _ cs =>
      e :: (fix iter_all (l : list Element) : list Element :=
              match l with
              | [] => []
              | c :: l' => iter c ++ iter_all l'
              end) cs
  end.

Definition has_tag (t : string) (e : Element) : bool := String.eqb (tag e) t.

(** [e.find(t)]: the first child of [e] with tag [t], or [None]. *)
Definition find (e : Element) (t : string) : option Element :=
  List.find (has_tag t) (children e).

(** [root.findall(".//" + t)]: every element below [root], at any depth,
    with tag [t], in document order. *)
Definition findall_descendants (root : Element) (t : string) : list Element :=
  List.filter (has_tag t) (flat_map iter (children root)).

End ET.

(** ** Findings *)

(** The dictionary built for one [error] element.  Each value is what
    [Element.get] returned, so it may be [None]. *)
Record issue : Type := mkIssue {
  severity : option string;
  id_ : option string;
  msg : option string;
  verbose : option string;
  file : option string;
  line : option string;
  column : option string
}.

(** ** [build_prompt] *)

(** One element of the list comprehension at lines 164-167. *)
Definition summary_line (i : issue) : string :=
  "- " +:+ Py.format (file i) +:+ ":" +:+ Py.format (line i) +:+ ":"
       +:+ Py.format (column i) +:+ " " +:+ Py.format (severity i) +:+ ": "
       +:+ Py.format (msg i) +:+ " (" +:+ Py.format (id_ i) +:+ ")".

Definition summary (issues : list issue) : string :=
  Py.join Py.nl (map summary_line issues).

Definition rule_set (filename : string) : string :=
  if Py.endswith filename ".c" then "MISRA C:2012" else "MISRA C++:2012".

Definition expert (rs : string) : string :=
  if Py.contains "C:2012" rs then "C expert" else "C++ expert".

(** The text of the template after the summary. *)
Definition instructions : string :=
  Py.nl +:+ "Produce a unified diff patch that fixes all violations. For each change, include a oneâ€sentence rationale referencing the violated rule number."
  +:+ Py.nl +:+ "Only return the diff. No extra commentary. [/INST]" +:+ Py.nl.

Definition prompt_template (source_code filename : string) (issues : list issue) : string :=
  Py.nl +:+ "[INST] You are a " +:+ expert (rule_set filename)
    +:+ " specializing in " +:+ rule_set filename +:+ " compliance." +:+ Py.nl
    +:+ "Here is the source file:" +:+ Py.nl
    +:+ "```" +:+ Py.nl
    +:+ source_code +:+ Py.nl
    +:+ "```" +:+ Py.nl
    +:+ "The static analyzer reported the following violations:" +:+ Py.nl
    +:+ summary issues
    +:+ instructions.

Definition build_prompt (source_code filename : string) (issues : list issue)
  : option string :=
  match issues with
  | [] => None
  | _ :: _ => Some (Py.strip (prompt_template source_code filename issues))
  end.

(** ** Exceptions, outcomes and the state of a run *)

(** The classes of the [Exception] instances that occur.  [SystemExit] is
    not one of them: it derives from [BaseException] and is the third
    constructor of [outcome]. *)
Inductive exc_class : Type :=
| CalledProcessError
| ParseError
| IndexError
| FileNotFoundError
| OtherException (name : string).

Record exception : Type := mkException {
  exc_cls : exc_class;
  exc_str : string            (* [str(e)], what [{e}] prints *)
}.

Inductive outcome (A : Type) : Type :=
| Return (a : A)
| Raise (e : exception)
| SystemExit (code : Z).
Arguments Return {A} a.
Arguments Raise {A} e.
Arguments SystemExit {A} code.

(** What a run does to the outside, in the order it happens. *)
Inductive event : Type :=
| Subprocess (cmd : list string)
| Llm (prompt : string) (max_tokens : nat) (stop : list string) (echo : bool)
| WandbLog (prompt patch : string)
| Stdout (text : string)
| Stderr (text : string).

Record state : Type := mkState {
  files : gmap string string;      (* the file system: path to content *)
  trace : list event
}.

(** The result of [subprocess.run]; [app.py] does not look at it. *)
Record CompletedProcess : Type := mkCompleted {
  returncode : Z;
  stderr_text : string      (* what the process wrote to its standard error *)
}.

(** The external collaborators. *)
Record World : Type := mkWorld {
  (** [shutil.which] *)
  which : string -> option string;
  (** the name [tempfile] picks for a new file with the given suffix *)
  mkstemp : gmap string string -> string -> string;
  (** the process started by [subprocess.run], on a file system *)
  subprocess_run : list string -> gmap string string -> CompletedProcess;
  (** [ET.parse] on the content of the report file: the root, or the
      exception raised, a [ParseError] for a report that is not well-formed
      XML, another one (a [UnicodeDecodeError]) for a report that cannot be
      read as UTF-8 text *)
  ET_parse : string -> ET.Element + exception;
  (** the [Llama] instance called on a prompt: the texts of the choices of
      the response, or the exception raised *)
  llm : string -> nat -> list string -> bool -> list string + exception;
  (** [wandb.log]: [None] when it returns *)
  wandb_log : string -> string -> option exception;
  (** start-up: environment, W&B session, model weights *)
  getenv : string -> option string;
  wandb_login : string -> option exception;
  wandb_init : option exception;
  path_exists : string -> bool;
  Llama : string -> nat -> nat -> option exception
}.

(** The monad of the embedding: a state transformer that ends in an
    [outcome]. *)
Definition M (A : Type) : Type := state -> outcome A * state.

Definition ret {A} (a : A) : M A := fun st => (Return a, st).

Definition bind {A B} (m : M A) (k : A -> M B) : M B :=
  fun st =>
    match m st with
    | (Return a, st') => k a st'
    | (Raise e, st') => (Raise e, st')
    | (SystemExit c, st') => (SystemExit c, st')
    end.

Notation "'let*' x ':=' m 'in' k" := (bind m (fun x => k))
  (at level 10, x name, m at level 100, k at level 200, only parsing).

Definition raise {A} (e : exception) : M A := fun st => (Raise e, st).

(** [sys.exit(code)] *)
Definition sys_exit {A} (code : Z) : M A := fun st => (SystemExit code, st).

(** [try: body / except <classes> as e: handler e].  [SystemExit] passes
    through every handler of [app.py]: none of them names [BaseException]. *)
Definition try_except {A} (body : M A) (catches : exc_class -> bool)
    (handler : exception -> M A) : M A :=
  fun st =>
    match body st with
    | (Raise e, st') => if catches (exc_cls e) then handler e st' else (Raise e, st')
    | r => r
    end.

(** [except Exception] *)
Definition Exception (c : exc_class) : bool := true.

Definition emit (ev : event) : M unit :=
  fun st => (Return tt, mkState (files st) (trace st ++ [ev])).

(** [print(text)] and [print(text, file=sys.stderr)] *)
Definition print (text : string) : M unit := emit (Stdout text).
Definition print_stderr (text : string) : M unit := emit (Stderr text).

(** *** Temporary files *)

(** A file object returned by [tempfile.NamedTemporaryFile]. *)
Record tmpfile : Type := mkTmp {
  name : string;
  delete_on_close : bool      (* the [delete] argument *)
}.

(** The uploaded file as Gradio hands it over: an object whose [name] is
    the path of the upload, a [str]; the [isinstance] test at line 233
    therefore takes its first branch. *)
Record upload : Type := mkUpload { upload_name : string }.

(** The pair returned to the interface: status message and patch. *)
Definition result : Type := string * option string.

Section Program.

Variable w : World.

(** [tempfile.NamedTemporaryFile(mode='w+', delete=..., suffix=...)]: a
    new, empty file. *)
Definition NamedTemporaryFile (delete : bool) (suffix : string) : M tmpfile :=
  fun st =>
    let path := mkstemp w (files st) suffix in
    (Return (mkTmp path delete), mkState (<[path := ""]> (files st)) (trace st)).

(** Leaving the [with] block closes the file; closing removes it from the
    file system only when it was created with [delete=True]. *)
Definition close (f : tmpfile) (st : state) : state :=
  if delete_on_close f
  then mkState (delete (name f) (files st)) (trace st)
  else st.

(** [with enter as f: body f]: the file is closed however the body ends. *)
Definition with_ {A} (enter : M tmpfile) (body : tmpfile -> M A) : M A :=
  fun st =>
    match enter st with
    | (Return f, st1) => let '(r, st2) := body f st1 in (r, close f st2)
    | (Raise e, st1) => (Raise e, st1)
    | (SystemExit c, st1) => (SystemExit c, st1)
    end.

(** [f.write(text); f.flush()] on a file just created. *)
Definition write (f : tmpfile) (text : string) : M unit :=
  fun st => (Return tt, mkState (<[name f := text]> (files st)) (trace st)).

(** [f.seek(0); f.read()] *)
Definition read (f : tmpfile) : M string :=
  fun st => (Return (default "" (files st !! name f)), st).

(** [open(path, 'r', encoding='utf-8').read()].  The file system holds, for
    a path, the text that reading it yields; a path it does not hold cannot
    be opened. *)
Definition open_read (path : string) : M string :=
  fun st =>
    match files st !! path with
    | Some text => (Return text, st)
    | None =>
        (Raise (mkException FileNotFoundError
                  ("[Errno 2] No such file or directory: '" +:+ path +:+ "'")), st)
    end.

(** ** [ensure_tool] *)

Definition ensure_tool (name : string) : M unit :=
  match which w name with
  | None =>
      let* _ := print_stderr ("Error: `" +:+ name +:+ "` not found. Please install it and retry.") in
      sys_exit 1
  | Some _ => ret tt
  end.

(** ** [run_cppcheck] *)

(** [subprocess.run(cmd, stdout=subprocess.PIPE, stderr=xml_file, ...)]:
    the standard error of the process lands in [xml_file].  There is no
    [check=True], so the exit status raises nothing.  The call is taken to
    return: a process that cannot be started, or whose standard output is
    not UTF-8 text, is left out of the embedding. *)
Definition run (cmd : list string) (xml_file : tmpfile) : M CompletedProcess :=
  fun st =>
    let p := subprocess_run w cmd (files st) in
    (Return p, mkState (<[name xml_file := stderr_text p]> (files st))
                       (trace st ++ [Subprocess cmd])).

(** [xml_file.seek(0); ET.parse(xml_file).getroot()] *)
Definition parse (xml_file : tmpfile) : M ET.Element :=
  let* text := read xml_file in
  match ET_parse w text with
  | inl root => ret root
  | inr e => raise e
  end.

(** The loop at lines 124-136, on the elements still to visit and the
    list [issues] built so far. *)
Fixpoint extract_issues (errors : list ET.Element) (issues : list issue)
  : list issue :=
  match errors with
  | [] => issues
  | error_element :: rest =>
      match ET.find error_element "location" with
      | Some location =>
          let issue :=
            {| severity := ET.get error_element "severity";
               id_ := ET.get error_element "id";
               msg := ET.get error_element "msg";
               verbose := ET.get error_element "verbose";
               file := ET.get location "file";
               line := ET.get location "line";
               column := ET.get location "column" |} in
          extract_issues rest (issues ++ [issue])
      | None => extract_issues rest issues
      end
  end.

Definition lang_args (filename : string) : list string :=
  if Py.endswith filename ".c"
  then ["--std=c99"; "--language=c"; "--addon=misra"]
  else ["--std=c++17"; "--language=c++"; "--profile=misra-cpp-2012"].

Definition cppcheck_cmd (filename src_file_path : string) : list string :=
  ["cppcheck"; "--enable=all"; "--xml"] ++ lang_args filename ++ [src_file_path].

(** [except (subprocess.CalledProcessError, ET.ParseError)] *)
Definition process_or_parse_error (c : exc_class) : bool :=
  match c with
  | CalledProcessError | ParseError => true
  | _ => false
  end.

(** Both files are created with [delete=False].  Nothing but [run] and
    [parse] can raise inside the [try], and both come before the loop, so
    [issues] is still empty when the handler is reached.  An exception of
    another class than the two named goes past the handler and out of the
    function, after the files have been closed. *)
Definition run_cppcheck (source_code filename : string) : M (list issue) :=
  let* _ := ensure_tool "cppcheck" in
  with_ (NamedTemporaryFile false ".c") (fun src_file =>
  with_ (NamedTemporaryFile false ".xml") (fun xml_file =>
    let src_file_path := name src_file in
    let* _ := write src_file source_code in
    let cmd := cppcheck_cmd filename src_file_path in
    try_except
      (let* _ := run cmd xml_file in
       let* root := parse xml_file in
       ret (extract_issues (ET.findall_descendants root "error") []))
      process_or_parse_error
      (fun e =>
         let* _ := print_stderr ("An error occurred during cppcheck execution or XML parsing: " +:+ exc_str e) in
         let* raw := read xml_file in
         let* _ := print_stderr ("Raw cppcheck XML output:" +:+ Py.nl +:+ raw) in
         ret []))).

(** ** [predict_patch] *)

(** [llm(prompt, max_tokens=..., stop=..., echo=...)] *)
Definition call_llm (prompt : string) (max_tokens : nat) (stop : list string)
    (echo : bool) : M (list string) :=
  let* _ := emit (Llm prompt max_tokens stop echo) in
  match llm w prompt max_tokens stop echo with
  | inl choices => ret choices
  | inr e => raise e
  end.

(** [response["choices"][0]["text"]] *)
Definition first_choice_text (choices : list string) : M string :=
  match choices with
  | text :: _ => ret text
  | [] => raise (mkException IndexError "list index out of range")
  end.

(** [wandb.log({"prompt": prompt, "patch": patch})] *)
Definition log (prompt patch : string) : M unit :=
  let* _ := emit (WandbLog prompt patch) in
  match wandb_log w prompt patch with
  | None => ret tt
  | Some e => raise e
  end.

Definition predict_patch (prompt : string) : M string :=
  try_except
    (let* response := call_llm prompt 512 ["[INST]"] false in
     let* patch := first_choice_text response in
     let* _ := log prompt patch in
     ret patch)
    Exception
    (fun e =>
       let* _ := print_stderr ("Error during local model inference: " +:+ exc_str e) in
       raise e).

(** ** [process_file] *)

Definition process_file (file_obj : option upload) : M result :=
  match file_obj with
  | None => ret ("Error: No file uploaded.", None)
  | Some f =>
      let filename := upload_name f in
      let* read_ :=
        try_except
          (let* src := open_read (upload_name f) in ret (inl src))
          Exception
          (fun e => ret (inr ("Failed to read file: " +:+ exc_str e, None)))
      in
      match read_ with
      | inr early => ret early
      | inl src =>
          if Py.falsy src
          then ret ("Error: The uploaded file appears to be empty.", None)
          else
            let* issues := run_cppcheck src filename in
            match build_prompt src filename issues with
            | None => ret ("No MISRA violations found.", None)
            | Some prompt =>
                try_except
                  (let* patch := predict_patch prompt in
                   ret ("Patch generated below:", Some patch))
                  Exception
                  (fun e =>
                     ret ("An error occurred during local model inference: "
                            +:+ exc_str e, None))
            end
      end
  end.

(** ** Start-up: the module-level code at lines 29-65 *)

Definition LOCAL_MODEL_PATH : string := "/app/codellama-7b-instruct.Q4_K_M.gguf".

Definition lift_call (r : option exception) : M unit :=
  match r with
  | None => ret tt
  | Some e => raise e
  end.

Definition startup : M unit :=
  let* _ :=
    match getenv w "WANDB_API_KEY" with
    | Some key => if Py.falsy key then ret tt else lift_call (wandb_login w key)
    | None => ret tt
    end in
  let* _ :=
    try_except (lift_call (wandb_init w)) Exception
      (fun e => print_stderr ("Warning: Failed to initialize wandb. " +:+ exc_str e)) in
  if negb (path_exists w LOCAL_MODEL_PATH)
  then
    let* _ := print_stderr ("Error: Local model path '" +:+ LOCAL_MODEL_PATH +:+ "' not found.") in
    let* _ := print_stderr "Please ensure the model file is copied into the container." in
    sys_exit 1
  else
    try_except
      (let* _ := print ("Loading local model from " +:+ LOCAL_MODEL_PATH +:+ "...") in
       let* _ := lift_call (Llama w LOCAL_MODEL_PATH 2048 40) in
       print "Model loaded successfully with GPU acceleration.")
      Exception
      (fun e =>
         let* _ := print_stderr ("Error loading local model: " +:+ exc_str e) in
         sys_exit 1).

End Program.

(** * Notions used to state the properties *)

(** ** The steps of one call of [run_cppcheck] *)

Section AnalysisSteps.

Variable w : World.
Variables source_code filename : string.
Variable st : state.

(** The two temporary files, in the order they are created. *)
Definition src_file_path : string := mkstemp w (files st) ".c".
Definition xml_file_path : string :=
  mkstemp w (<[src_file_path := ""]> (files st)) ".xml".

(** The file system the analyzer process sees. *)
Definition files_before_run : gmap string string :=
  <[src_file_path := source_code]>
    (<[xml_file_path := ""]> (<[src_file_path := ""]> (files st))).

Definition analyzer_cmd : list string := cppcheck_cmd filename src_file_path.

Definition analyzer_process : CompletedProcess :=
  subprocess_run w analyzer_cmd files_before_run.

(** The captured report. *)
Definition report : string := stderr_text analyzer_process.

(** The file system once the analyzer has exited. *)
Definition files_after_run : gmap string string :=
  <[xml_file_path := report]> files_before_run.

End AnalysisSteps.

(** ** The rendered prompt *)

(** [nl not in s] *)
Definition single_line (s : string) : Prop := Py.contains Py.nl s = false.

(** The last two lines of every prompt. *)
Definition closing : string :=
  "Produce a unified diff patch that fixes all violations. For each change, include a oneâ€sentence rationale referencing the violated rule number."
  +:+ Py.nl +:+ "Only return the diff. No extra commentary. [/INST]".

(** Everything before the summary: the first line, and the source between
    its fences. *)
Definition opening (source_code filename : string) : string :=
  "[INST] You are a " +:+ expert (rule_set filename)
    +:+ " specializing in " +:+ rule_set filename +:+ " compliance." +:+ Py.nl
    +:+ "Here is the source file:" +:+ Py.nl
    +:+ "```" +:+ Py.nl
    +:+ source_code +:+ Py.nl
    +:+ "```" +:+ Py.nl
    +:+ "The static analyzer reported the following violations:".

Definition rendered (source_code filename : string) (issues : list issue) : string :=
  opening source_code filename +:+ Py.nl +:+ summary issues +:+ Py.nl +:+ closing.

(** ** The findings of a report, as the specification describes them *)



(** ** Calls to the collaborators, read off the trace *)

Definition is_model_call (ev : event) : bool :=
  match ev with
  | Llm _ _ _ _ => true
  | _ => false
  end.

Definition is_analyzer_call (ev : event) : bool :=
  match ev with
  | Subprocess _ => true
  | _ => false
  end.

Definition model_calls (t : list event) : list event := List.filter is_model_call t.
Definition analyzer_calls (t : list event) : list event := List.filter is_analyzer_call t.

(** The events of one call of [predict_patch]. *)
Definition model_call (prompt : string) : event := Llm prompt 512 ["[INST]"] false.

Definition inference_error (e : exception) : event :=
  Stderr ("Error during local model inference: " +:+ exc_str e).

(** ** The results of [process_file] *)

Definition no_file : result := ("Error: No file uploaded.", None).
Definition empty_file : result := ("Error: The uploaded file appears to be empty.", None).
Definition no_violations : result := ("No MISRA violations found.", None).
Definition patch_generated (patch : string) : result :=
  ("Patch generated below:", Some patch).
Definition inference_failed (e : exception) : result :=
  ("An error occurred during local model inference: " +:+ exc_str e, None).
Definition read_failed (e : exception) : result :=
  ("Failed to read file: " +:+ exc_str e, None).

(** The status that goes with a patch. *)
Definition success_status : string := "Patch generated below:".

(** A pair with a status message, whose patch is present exactly when the
    status is the success status. *)
Definition well_formed (r : result) : Prop :=
  fst r <> "" /\ (is_Some (snd r) <-> fst r = success_status).

(** The terminal paths of the pipeline. *)
Inductive terminal : result -> Prop :=
| terminal_no_file : terminal no_file
| terminal_read_failed e : terminal (read_failed e)
| terminal_empty_file : terminal empty_file
| terminal_no_violations : terminal no_violations
| terminal_inference_failed e : terminal (inference_failed e)
| terminal_patch_generated patch : terminal (patch_generated patch).

(** ** The lines of the summary *)

(** The line of a finding in the words of the specification:
    [file:line:column severity: message (rule_id)]. *)
Definition finding_text (i : issue) : string :=
  Py.format (file i) +:+ ":" +:+ Py.format (line i) +:+ ":"
    +:+ Py.format (column i) +:+ " " +:+ Py.format (severity i) +:+ ": "
    +:+ Py.format (msg i) +:+ " (" +:+ Py.format (id_ i) +:+ ")".

(** [l] is one of the lines of [text]. *)
Definition has_line (l text : string) : bool :=
  existsb (String.eqb l) (Py.split Py.LF text).

(** ** Worlds that differ in one collaborator *)

Definition with_which (wh : string -> option string) (w : World) : World :=
  mkWorld wh (mkstemp w) (subprocess_run w) (ET_parse w) (llm w) (wandb_log w)
    (getenv w) (wandb_login w) (wandb_init w) (path_exists w) (Llama w).

Definition with_llm
    (m : string -> nat -> list string -> bool -> list string + exception)
    (w : World) : World :=
  mkWorld (which w) (mkstemp w) (subprocess_run w) (ET_parse w) m (wandb_log w)
    (getenv w) (wandb_login w) (wandb_init w) (path_exists w) (Llama w).

Definition with_subprocess
    (p : list string -> gmap string string -> CompletedProcess)
    (w : World) : World :=
  mkWorld (which w) (mkstemp w) p (ET_parse w) (llm w) (wandb_log w)
    (getenv w) (wandb_login w) (wandb_init w) (path_exists w) (Llama w).

(** ** A concrete installation, for running the embedding *)

Module Sample.

(** The first name [/tmp/tmp<n><suffix>] that is free, [n] counted up
    from [n0]. *)
Fixpoint first_free (fs : gmap string string) (suffix : string) (n0 fuel : nat)
  : string :=
  let path := "/tmp/tmp" +:+ pretty n0 +:+ suffix in
  match fuel with
  | O => path
  | S fuel' =>
      match fs !! path with
      | None => path
      | Some _ => first_free fs suffix (S n0) fuel'
      end
  end.

Definition tmp_name (fs : gmap string string) (suffix : string) : string :=
  first_free fs suffix 0 (size fs).

(** Three reports: one finding with a location and one without; no
    finding; and the output of a crashed analyzer. *)
Definition report_two : string :=
  "<results version='2'><errors><error id='misra-c2012-8.4' severity='style' msg='no previous declaration' verbose='no previous declaration'><location file='a.c' line='1' column='1'/></error><error id='missingIncludeSystem' severity='information' msg='missing include'/></errors></results>".
Definition report_clean : string := "<results version='2'><errors/></results>".
Definition report_crash : string := "Segmentation fault".

Definition location : ET.Element :=
  ET.mkElement "location"
    (<["file" := "a.c"]> (<["line" := "1"]> (<["column" := "1"]> ∅))) [].

Definition located_error : ET.Element :=
  ET.mkElement "error"
    (<["id" := "misra-c2012-8.4"]> (<["severity" := "style"]>
      (<["msg" := "no previous declaration"]>
        (<["verbose" := "no previous declaration"]> ∅))))
    [location].

Definition unlocated_error : ET.Element :=
  ET.mkElement "error"
    (<["id" := "missingIncludeSystem"]> (<["severity" := "information"]>
      (<["msg" := "missing include"]> ∅)))
    [].

Definition root_two : ET.Element :=
  ET.mkElement "results" (<["version" := "2"]> ∅)
    [ET.mkElement "errors" ∅ [located_error; unlocated_error]].

Definition root_clean : ET.Element :=
  ET.mkElement "results" (<["version" := "2"]> ∅) [ET.mkElement "errors" ∅ []].

Definition parser (text : string) : ET.Element + exception :=
  if String.eqb text report_two then inl root_two
  else if String.eqb text report_clean then inl root_clean
  else inr (mkException ParseError "syntax error: line 1, column 0").

(** The analyzer reads the file named last on its command line. *)
Definition analyzer (cmd : list string) (fs : gmap string string) : CompletedProcess :=
  match fs !! List.last cmd "" with
  | Some "int x;" => mkCompleted 0 report_two
  | Some "int main(void) { return 0; }" => mkCompleted 0 report_clean
  | _ => mkCompleted 1 report_crash
  end.

Definition world : World :=
  {| which := fun tool => if String.eqb tool "cppcheck" then Some "/usr/bin/cppcheck" else None;
     mkstemp := tmp_name;
     subprocess_run := analyzer;
     ET_parse := parser;
     llm := fun _ _ _ _ => inl ["--- a.c"];
     wandb_log := fun _ _ => None;
     getenv := fun _ => None;
     wandb_login := fun _ => None;
     wandb_init := None;
     path_exists := fun _ => true;
     Llama := fun _ _ _ => None |}.

(** The same installation without [cppcheck]. *)
Definition no_tool : World := with_which (fun _ => None) world.

(** The analyzer crashes on every input. *)
Definition crashing : World :=
  with_subprocess (fun _ _ => mkCompleted 139 report_crash) world.

(** The model raises on every call. *)
Definition model_down : World :=
  with_llm (fun _ _ _ _ => inr (mkException (OtherException "RuntimeError") "out of memory")) world.

(** The model returns an empty completion. *)
Definition model_silent : World := with_llm (fun _ _ _ _ => inl [""]) world.

Definition a_c : upload := mkUpload "/uploads/a.c".

(** File systems holding one upload. *)
Definition disk (text : string) : state :=
  mkState (<["/uploads/a.c" := text]> ∅) [].

Definition example_finding : issue :=
  {| severity := Some "style";
     id_ := Some "misra-c2012-8.4";
     msg := Some "no previous declaration";
     verbose := Some "no previous declaration";
     file := Some "a.c";
     line := Some "1";
     column := Some "1" |}.

End Sample.

(** * Further notions: the interface, telemetry, free names *)

(** The extensions the upload widget accepts: the [file_types] of the
    [gr.File] input that [main] builds at line 263. *)
Definition file_types : list string := [".c"; ".cpp"; ".h"; ".hpp"].

(** The two sets of flags of lines 108 and 110. *)
Definition c_flags : list string := ["--std=c99"; "--language=c"; "--addon=misra"].
Definition cpp_flags : list string :=
  ["--std=c++17"; "--language=c++"; "--profile=misra-cpp-2012"].

(** The name ends in [.c]. *)
Definition dot_c (filename : string) : Prop := exists stem, filename = stem +:+ ".c".

(** The calls of [wandb.log] in a trace. *)
Definition is_log (ev : event) : bool :=
  match ev with
  | WandbLog _ _ => true
  | _ => false
  end.

Definition logged (t : list event) : list event := List.filter is_log t.

(** The two names [tempfile] picks for a call of [run_cppcheck] from [st]
    are not in use, as [tempfile] sees to. *)
Definition names_are_free (w : World) (st : state) : Prop :=
  files st !! src_file_path w st = None
  /\ <[src_file_path w st := ""]> (files st) !! xml_file_path w st = None.

(** What the login at lines 29-31 does: nothing without a key, or with an
    empty one. *)
Definition login (w : World) : option exception :=
  match getenv w "WANDB_API_KEY" with
  | Some key => if Py.falsy key then None else wandb_login w key
  | None => None
  end.

Definition with_wandb_log (l : string -> string -> option exception) (w : World)
  : World :=
  mkWorld (which w) (mkstemp w) (subprocess_run w) (ET_parse w) (llm w) l
    (getenv w) (wandb_login w) (wandb_init w) (path_exists w) (Llama w).

Definition with_parser (p : string -> ET.Element + exception) (w : World) : World :=
  mkWorld (which w) (mkstemp w) (subprocess_run w) p (llm w) (wandb_log w)
    (getenv w) (wandb_login w) (wandb_init w) (path_exists w) (Llama w).

(** The same processes, with other exit statuses. *)
Definition with_returncodes (rc : list string -> gmap string string -> Z) (w : World)
  : World :=
  with_subprocess
    (fun cmd fs => mkCompleted (rc cmd fs) (stderr_text (subprocess_run w cmd fs))) w.

Module Scenario.

(** W&B was never initialised: every [wandb.log] raises. *)
Definition log_down : World :=
  with_wandb_log
    (fun _ _ => Some (mkException (OtherException "Error")
                        "You must call wandb.init() before wandb.log()"))
    Sample.world.

(** The model answers with no choice at all. *)
Definition no_choices : World := with_llm (fun _ _ _ _ => inl []) Sample.world.

(** The report is not UTF-8 text: reading it back raises
    [UnicodeDecodeError]. *)
Definition undecodable : World :=
  with_parser
    (fun _ => inr (mkException (OtherException "UnicodeDecodeError")
                     "'utf-8' codec can't decode byte 0xff in position 0: invalid start byte"))
    Sample.world.

(** An [error] element and its [location], neither with any attribute. *)
Definition bare_location : ET.Element := ET.mkElement "location" ∅ [].
Definition bare_error : ET.Element := ET.mkElement "error" ∅ [bare_location].

End Scenario.

(** * Properties *)

(** Unfolds the operations of the monad and of the temporary files. *)
Ltac unfold_M :=
  unfold try_except, with_, bind, ret, raise, sys_exit, print, print_stderr,
    emit, write, read, parse, run, NamedTemporaryFile, close, lift_call in *.

(** ** The string operations on the inputs [app.py] gives them *)

Example endswith_dot_c :
  Py.endswith "main.c" ".c" = true /\ Py.endswith "main.cpp" ".c" = false
  /\ Py.endswith "c" ".c" = false /\ Py.endswith ".c" ".c" = true.
Proof. by vm_compute. Qed.

Example expert_of_rule_set :
  expert (rule_set "a.c") = "C expert" /\ expert (rule_set "a.hpp") = "C++ expert".
Proof. by vm_compute. Qed.

Example strip_both_ends :
  Py.strip (Py.nl +:+ "  [INST] a b  [/INST] " +:+ Py.nl) = "[INST] a b  [/INST]".
Proof. by vm_compute. Qed.

Example split_lines :
  Py.split Py.LF ("a" +:+ Py.nl +:+ "b" +:+ Py.nl) = ["a"; "b"; ""].
Proof. by vm_compute. Qed.

Example join_lines : Py.join Py.nl ["a"; "b"; "c"] = "a" +:+ Py.nl +:+ "b" +:+ Py.nl +:+ "c".
Proof. by vm_compute. Qed.

Example findall_document_order :
  ET.findall_descendants Sample.root_two "error"
  = [Sample.located_error; Sample.unlocated_error].
Proof. by vm_compute. Qed.

(** ** What a call of [run_cppcheck] does, step by step *)

Section Analysis.

Variable w : World.
Variables source_code filename : string.
Variable st : state.

(** Brings the goal, once the monad is unfolded, back to the named steps. *)
Ltac fold_steps :=
  fold (src_file_path w st); fold (xml_file_path w st);
  fold (files_before_run w source_code st); fold (analyzer_cmd w filename st);
  fold (analyzer_process w source_code filename st);
  fold (report w source_code filename st).

Lemma run_cppcheck_missing_tool :
  which w "cppcheck" = None ->
  run_cppcheck w source_code filename st =
    (SystemExit 1,
     mkState (files st)
       (trace st ++ [Stderr "Error: `cppcheck` not found. Please install it and retry."])).
Proof.
  intros Hw. unfold run_cppcheck, ensure_tool. unfold_M. rewrite Hw. reflexivity.
Qed.

Lemma run_cppcheck_parsed root :
  which w "cppcheck" <> None ->
  ET_parse w (report w source_code filename st) = inl root ->
  run_cppcheck w source_code filename st =
    (Return (extract_issues (ET.findall_descendants root "error") []),
     mkState (files_after_run w source_code filename st) (trace st ++ [Subprocess (analyzer_cmd w filename st)])).
Proof.
  intros Hw Hp. unfold run_cppcheck, ensure_tool, bind.
  destruct (which w "cppcheck") as [tool|]; [|congruence].
  unfold_M. cbn -[ET.findall_descendants extract_issues cppcheck_cmd].
  fold_steps.
  rewrite lookup_insert_eq. cbn. rewrite Hp. reflexivity.
Qed.

(** The report cannot be read and the exception is one of the two that
    the handler names. *)
Lemma run_cppcheck_report_error e :
  which w "cppcheck" <> None ->
  ET_parse w (report w source_code filename st) = inr e ->
  process_or_parse_error (exc_cls e) = true ->
  run_cppcheck w source_code filename st =
    (Return [],
     mkState (files_after_run w source_code filename st)
       (trace st ++ [Subprocess (analyzer_cmd w filename st)]
          ++ [Stderr ("An error occurred during cppcheck execution or XML parsing: "
                        +:+ exc_str e)]
          ++ [Stderr ("Raw cppcheck XML output:" +:+ Py.nl +:+ (report w source_code filename st))])).
Proof.
  intros Hw Hp Hc. unfold run_cppcheck, ensure_tool, bind.
  destruct (which w "cppcheck") as [tool|]; [|congruence].
  unfold_M. cbn -[cppcheck_cmd].
  fold_steps.
  rewrite lookup_insert_eq. cbn. rewrite Hp. cbn. rewrite Hc. cbn.
  rewrite lookup_insert_eq. cbn. rewrite <- !app_assoc. reflexivity.
Qed.


(** The report cannot be read and the exception is of another class: it
    leaves [run_cppcheck], the two files closed and kept. *)
Lemma run_cppcheck_report_escapes e :
  which w "cppcheck" <> None ->
  ET_parse w (report w source_code filename st) = inr e ->
  process_or_parse_error (exc_cls e) = false ->
  run_cppcheck w source_code filename st =
    (Raise e,
     mkState (files_after_run w source_code filename st)
       (trace st ++ [Subprocess (analyzer_cmd w filename st)])).
Proof.
  intros Hw Hp Hc. unfold run_cppcheck, ensure_tool, bind.
  destruct (which w "cppcheck") as [tool|]; [|congruence].
  unfold_M. cbn -[cppcheck_cmd].
  fold_steps.
  rewrite lookup_insert_eq. cbn. rewrite Hp. cbn. rewrite Hc. reflexivity.
Qed.

End Analysis.

(** ** Strings: stripping, joining and splitting *)

Section Strings.

Lemma append_nil_l (t : string) : "" +:+ t = t.
Proof. reflexivity. Qed.

Lemma append_cons (a : ascii) (s t : string) :
  String a s +:+ t = String a (s +:+ t).
Proof. reflexivity. Qed.

Lemma append_assoc (s t u : string) : (s +:+ t) +:+ u = s +:+ (t +:+ u).
Proof.
  induction s as [|a s IH]; [reflexivity|].
  rewrite !append_cons. by rewrite IH.
Qed.

Lemma append_eq_nil (s t : string) : s +:+ t = "" -> t = "".
Proof. destruct s; [done|]. rewrite append_cons. discriminate. Qed.

(** Trailing white space is looked for in the last part only, as long as
    something of that part is left. *)
Lemma rstrip_append (s t : string) :
  Py.rstrip t <> "" -> Py.rstrip (s +:+ t) = s +:+ Py.rstrip t.
Proof.
  intros Ht. induction s as [|a s IH]; [reflexivity|].
  rewrite !append_cons. cbn [Py.rstrip]. rewrite IH.
  destruct (s +:+ Py.rstrip t) eqn:E; [|reflexivity].
  apply append_eq_nil in E. contradiction.
Qed.

Lemma single_line_cons (a : ascii) (s : string) :
  single_line (String a s) -> Ascii.eqb a Py.LF = false /\ single_line s.
Proof.
  unfold single_line. cbn [Py.contains Py.nl String.prefix].
  destruct (ascii_dec Py.LF a) as [<-|Hne].
  - destruct s; discriminate.
  - intros H. split; [|exact H].
    apply Ascii.eqb_neq. congruence.
Qed.

Lemma split_nonempty (sep : ascii) (s : string) : Py.split sep s <> [].
Proof.
  induction s as [|a s IH]; cbn [Py.split]; [done|].
  destruct (Ascii.eqb a sep); [done|].
  destruct (Py.split sep s); done.
Qed.

Lemma split_single_line (s : string) :
  single_line s -> Py.split Py.LF s = [s].
Proof.
  induction s as [|a s IH]; [reflexivity|].
  intros [Ha Hs]%single_line_cons. cbn [Py.split]. rewrite Ha.
  by rewrite (IH Hs).
Qed.

Lemma split_first_line (s t : string) :
  single_line s ->
  Py.split Py.LF (s +:+ Py.nl +:+ t) = s :: Py.split Py.LF t.
Proof.
  induction s as [|a s IH].
  - intros _. reflexivity.
  - intros [Ha Hs]%single_line_cons. rewrite append_cons.
    cbn [Py.split]. rewrite Ha. by rewrite (IH Hs).
Qed.

(** Splitting at line feeds undoes joining with line feeds, when no part
    has a line feed inside. *)
Lemma split_join (parts : list string) :
  parts <> [] ->
  Forall single_line parts ->
  Py.split Py.LF (Py.join Py.nl parts) = parts.
Proof.
  intros Hne Hall. induction Hall as [|p ps Hp Hps IH]; [done|].
  destruct ps as [|q ps].
  - cbn. by apply split_single_line.
  - unfold Py.join in *.
    change (String.concat Py.nl (p :: q :: ps))
      with (p +:+ Py.nl +:+ String.concat Py.nl (q :: ps)).
    rewrite split_first_line by done. by rewrite IH.
Qed.

End Strings.

(** ** The rendered prompt in closed form *)

Lemma strip_prompt_template source_code filename issues :
  Py.strip (prompt_template source_code filename issues)
  = rendered source_code filename issues.
Proof.
  unfold Py.strip, prompt_template, rendered, opening.
  change (Py.lstrip (Py.nl +:+ "[INST] You are a " +:+ ?x))
    with ("[INST] You are a " +:+ x).
  rewrite <- !append_assoc. rewrite rstrip_append by (vm_compute; discriminate).
  change (Py.rstrip instructions) with (Py.nl +:+ closing).
  by rewrite !append_assoc.
Qed.

Lemma build_prompt_rendered source_code filename issues :
  issues <> [] ->
  build_prompt source_code filename issues
  = Some (rendered source_code filename issues).
Proof.
  intros Hne. destruct issues as [|i issues]; [done|].
  unfold build_prompt. by rewrite strip_prompt_template.
Qed.

(** ** The loop of [run_cppcheck] against its description *)



(** ** Case analysis of the three stateful functions *)

Section Cases.

Variable w : World.

(** [run_cppcheck] leaves through [sys.exit] exactly when the tool is
    missing, before it has touched anything; otherwise it returns its
    findings or lets an exception of [ET.parse] through, with the two
    temporary files written either way; it never calls the model. *)
Lemma run_cppcheck_cases source_code filename st :
  (which w "cppcheck" = None /\
   exists st', run_cppcheck w source_code filename st = (SystemExit 1, st')
               /\ files st' = files st
               /\ model_calls (trace st') = model_calls (trace st)
               /\ analyzer_calls (trace st') = analyzer_calls (trace st))
  \/
  (which w "cppcheck" <> None /\
   exists r st',
     run_cppcheck w source_code filename st = (r, st')
     /\ (forall c, r <> SystemExit c)
     /\ files st' = files_after_run w source_code filename st
     /\ model_calls (trace st') = model_calls (trace st)).
Proof.
  destruct (which w "cppcheck") as [tool|] eqn:Hw.
  - right. split; [done|].
    assert (Hne : which w "cppcheck" <> None) by congruence.
    destruct (ET_parse w (report w source_code filename st)) as [root|e] eqn:Hp.
    + eexists _, _. split; [by apply run_cppcheck_parsed|].
      split; [done|]. split; [done|]. cbn. unfold model_calls.
      rewrite List.filter_app. cbn. by rewrite app_nil_r.
    + destruct (process_or_parse_error (exc_cls e)) eqn:Hc.
      * eexists _, _. split; [by eapply run_cppcheck_report_error|].
        split; [done|]. split; [done|]. cbn. unfold model_calls.
        rewrite !List.filter_app. cbn. by rewrite !app_nil_r.
      * eexists _, _. split; [by eapply run_cppcheck_report_escapes|].
        split; [done|]. split; [done|]. cbn. unfold model_calls.
        rewrite !List.filter_app. cbn. by rewrite !app_nil_r.
  - left. split; [done|].
    eexists. split; [by apply run_cppcheck_missing_tool|].
    cbn. unfold model_calls, analyzer_calls. rewrite !List.filter_app. cbn.
    by rewrite !app_nil_r.
Qed.

(** [predict_patch], case by case. *)
Lemma predict_patch_cases prompt st :
  predict_patch w prompt st =
    match llm w prompt 512 ["[INST]"] false with
    | inl (text :: _) =>
        match wandb_log w prompt text with
        | None =>
            (Return text,
             mkState (files st) (trace st ++ [model_call prompt; WandbLog prompt text]))
        | Some e =>
            (Raise e,
             mkState (files st)
               (trace st ++ [model_call prompt; WandbLog prompt text; inference_error e]))
        end
    | inl [] =>
        let e := mkException IndexError "list index out of range" in
        (Raise e, mkState (files st) (trace st ++ [model_call prompt; inference_error e]))
    | inr e =>
        (Raise e, mkState (files st) (trace st ++ [model_call prompt; inference_error e]))
    end.
Proof.
  unfold predict_patch, call_llm, first_choice_text, log, model_call, inference_error.
  unfold_M. cbn.
  destruct (llm w prompt 512 ["[INST]"] false) as [[|text rest]|e]; cbn.
  - by rewrite <- !app_assoc.
  - destruct (wandb_log w prompt text) as [e|]; cbn; by rewrite <- !app_assoc.
  - by rewrite <- !app_assoc.
Qed.

Lemma predict_patch_no_exit prompt st c st' :
  predict_patch w prompt st <> (SystemExit c, st').
Proof.
  rewrite predict_patch_cases.
  destruct (llm w prompt 512 ["[INST]"] false) as [[|text rest]|e]; [done| |done].
  destruct (wandb_log w prompt text); done.
Qed.

(** [process_file] on an upload that can be read and is not empty: steps
    2 to 5 of the pipeline. *)
Lemma process_file_steps f src st :
  files st !! upload_name f = Some src ->
  src <> "" ->
  process_file w (Some f) st =
    match run_cppcheck w src (upload_name f) st with
    | (Return issues, st1) =>
        match build_prompt src (upload_name f) issues with
        | None => (Return no_violations, st1)
        | Some prompt =>
            match predict_patch w prompt st1 with
            | (Return patch, st2) => (Return (patch_generated patch), st2)
            | (Raise e, st2) => (Return (inference_failed e), st2)
            | (SystemExit c, st2) => (SystemExit c, st2)
            end
        end
    | (Raise e, st1) => (Raise e, st1)
    | (SystemExit c, st1) => (SystemExit c, st1)
    end.
Proof.
  intros Hread Hne. unfold process_file, open_read. unfold_M. rewrite Hread.
  destruct src as [|a src]; [done|]. cbn [Py.falsy].
  destruct (run_cppcheck w (String a src) (upload_name f) st) as [[issues|e|c] st1];
    [|done..].
  destruct (build_prompt (String a src) (upload_name f) issues) as [prompt|]; [|done].
  destruct (predict_patch w prompt st1) as [[patch|e|c] st2]; done.
Qed.

Lemma process_file_unreadable f st :
  files st !! upload_name f = None ->
  process_file w (Some f) st =
    (Return (read_failed
               (mkException FileNotFoundError
                  ("[Errno 2] No such file or directory: '" +:+ upload_name f +:+ "'"))),
     st).
Proof.
  intros Hread. unfold process_file, open_read. unfold_M. by rewrite Hread.
Qed.

Lemma process_file_empty f st :
  files st !! upload_name f = Some "" ->
  process_file w (Some f) st = (Return empty_file, st).
Proof.
  intros Hread. unfold process_file, open_read. unfold_M. by rewrite Hread.
Qed.

(** Without the analyzer, a request that reaches the analysis ends the
    process. *)
Lemma process_file_missing_tool f src st :
  which w "cppcheck" = None ->
  files st !! upload_name f = Some src ->
  src <> "" ->
  exists st', process_file w (Some f) st = (SystemExit 1, st') /\ files st' = files st.
Proof.
  intros Hw Hread Hne.
  rewrite (process_file_steps f src st Hread Hne).
  destruct (run_cppcheck_cases src (upload_name f) st)
    as [[_ (st' & Hrun & Hf & _)]|[Hsome _]]; [|done].
  rewrite Hrun. by exists st'.
Qed.

End Cases.

(** * The properties of the specification *)

(** ** C1: the temporary files of [run_cppcheck] *)

(** A file created with [delete=True] is gone when its [with] block is
    left, however the block ends. *)
Lemma with_delete_removes {A} (w : World) (suffix : string) (body : tmpfile -> M A)
    (st : state) :
  files (snd (with_ (NamedTemporaryFile w true suffix) body st))
    !! mkstemp w (files st) suffix = None.
Proof.
  unfold_M. cbn.
  destruct (body _ _) as [r st2] eqn:E. cbn.
  apply lookup_delete_eq.
Qed.

(** With [delete=False], as [run_cppcheck] has it, both files are still
    there when the call returns. *)
Lemma run_cppcheck_keeps_temporary_files (w : World) (source_code filename : string)
    (st : state) :
  which w "cppcheck" <> None ->
  let st' := snd (run_cppcheck w source_code filename st) in
  is_Some (files st' !! src_file_path w st)
  /\ files st' !! xml_file_path w st = Some (report w source_code filename st).
Proof.
  intros Hw st'.
  assert (Hfiles : files st' = files_after_run w source_code filename st).
  { destruct (run_cppcheck_cases w source_code filename st)
      as [[Hnone _]|[_ (r & st1 & Hrun & _ & Hf & _)]]; [done|].
    subst st'. by rewrite Hrun. }
  rewrite Hfiles. unfold files_after_run, files_before_run. split.
  - destruct (decide (xml_file_path w st = src_file_path w st)) as [->|Hne].
    + rewrite lookup_insert_eq. by eexists.
    + rewrite lookup_insert_ne by done. rewrite lookup_insert_eq. by eexists.
  - apply lookup_insert_eq.
Qed.

(** C1.  The temporary files are to be gone when [run_cppcheck] returns,
    as its own comments say they are; the code keeps them.  On the source
    [int x;] under the name [a.c], with a file system that holds only the
    upload, the call returns one finding and leaves the source buffer
    [/tmp/tmp0.c] and the captured report [/tmp/tmp0.xml] behind; when the
    analyzer crashes with a nonzero status the call returns no finding and
    leaves both files behind as well. *)
Theorem run_cppcheck_leaves_temporary_files :
  let before := Sample.disk "int x;" in
  let ok := run_cppcheck Sample.world "int x;" "a.c" before in
  let crash := run_cppcheck Sample.crashing "int x;" "a.c" before in
  files before !! "/tmp/tmp0.c" = None
  /\ files before !! "/tmp/tmp0.xml" = None
  /\ fst ok = Return [Sample.example_finding]
  /\ files (snd ok) !! "/tmp/tmp0.c" = Some "int x;"
  /\ files (snd ok) !! "/tmp/tmp0.xml" = Some Sample.report_two
  /\ returncode (analyzer_process Sample.crashing "int x;" "a.c" before) = 139%Z
  /\ fst crash = Return []
  /\ files (snd crash) !! "/tmp/tmp0.c" = Some "int x;"
  /\ files (snd crash) !! "/tmp/tmp0.xml" = Some Sample.report_crash.
Proof. vm_compute. repeat split. Qed.

(** ** C5: where the analyzer executable is checked *)

(** C5, as stated, fails on the code: in an installation without
    [cppcheck] the start-up code completes, and the first request with a
    readable, non-empty file ends in [sys.exit(1)] inside [run_cppcheck]. *)
Lemma missing_tool_is_fatal_during_a_call :
  let booted := startup Sample.no_tool (Sample.disk "int x;") in
  which Sample.no_tool "cppcheck" = None
  /\ fst booted = Return tt
  /\ fst (process_file Sample.no_tool (Some Sample.a_c) (snd booted)) = SystemExit 1.
Proof. vm_compute. repeat split. Qed.

(** C5, amended.  The start-up code does not look for the analyzer: it runs
    the same whatever [shutil.which] would answer.  The check is made at the
    beginning of every call of [run_cppcheck]; when the executable is
    missing the call ends the process with exit status 1 before any
    temporary file is created or any process is started, and [process_file]
    lets that exit through on every readable, non-empty upload. *)
Theorem tool_is_checked_on_every_call (w : World) :
  which w "cppcheck" = None ->
  (forall wh st, startup (with_which wh w) st = startup w st)
  /\ (forall source_code filename st,
        exists st', run_cppcheck w source_code filename st = (SystemExit 1, st')
                    /\ files st' = files st
                    /\ analyzer_calls (trace st') = analyzer_calls (trace st))
  /\ (forall f src st,
        files st !! upload_name f = Some src -> src <> "" ->
        exists st', process_file w (Some f) st = (SystemExit 1, st')
                    /\ files st' = files st).
Proof.
  intros Hw. split; [reflexivity|]. split.
  - intros source_code filename st.
    destruct (run_cppcheck_cases w source_code filename st)
      as [[_ (st' & Hrun & Hf & _ & Ha)]|[Hsome _]]; [|done].
    by exists st'.
  - intros f src st Hread Hne. by apply (process_file_missing_tool w f src).
Qed.

Lemma tool_is_checked_on_every_call_witness :
  which Sample.no_tool "cppcheck" = None
  /\ exists st', process_file Sample.no_tool (Some Sample.a_c) (Sample.disk "int x;")
                 = (SystemExit 1, st')
                 /\ files st' = files (Sample.disk "int x;").
Proof.
  split; [reflexivity|].
  apply (proj2 (proj2 (tool_is_checked_on_every_call Sample.no_tool eq_refl))
           Sample.a_c "int x;" (Sample.disk "int x;")).
  - reflexivity.
  - discriminate.
Defined.

(** ** C6: empty input *)

(** C6.  Without a file, and with a file whose content is empty,
    [process_file] returns its input-error status and no patch, and the
    state is the one it started from: no temporary file was written and
    neither the analyzer nor the model was called. *)
Theorem empty_input_is_rejected (w : World) (st : state) :
  process_file w None st = (Return ("Error: No file uploaded.", None), st)
  /\ forall f,
       files st !! upload_name f = Some "" ->
       process_file w (Some f) st
       = (Return ("Error: The uploaded file appears to be empty.", None), st).
Proof.
  split; [reflexivity|]. intros f Hread. by apply process_file_empty.
Qed.

Lemma empty_input_is_rejected_witness :
  files (Sample.disk "") !! upload_name Sample.a_c = Some ""
  /\ process_file Sample.world (Some Sample.a_c) (Sample.disk "")
     = (Return ("Error: The uploaded file appears to be empty.", None), Sample.disk "").
Proof.
  split; [reflexivity|].
  apply (proj2 (empty_input_is_rejected Sample.world (Sample.disk "")) Sample.a_c).
  reflexivity.
Defined.

(** ** C2, C3, C4, C10: the results of [process_file] *)

Lemma terminal_well_formed (r : result) : terminal r -> well_formed r.
Proof.
  unfold well_formed, success_status.
  destruct 1; cbn; (split; [discriminate|]);
    split; first [by intros [? ?] | discriminate | by eexists | done].
Qed.

Lemma terminal_patch_None (r : result) :
  terminal r -> (forall patch, r <> patch_generated patch) -> snd r = None.
Proof. destruct 1; intros Hne; try reflexivity. by destruct (Hne patch). Qed.

Section Pipeline.

Variable w : World.

Lemma process_file_returns_terminal file_obj st r st' :
  process_file w file_obj st = (Return r, st') -> terminal r.
Proof.
  destruct file_obj as [f|]; [|intros [= <- _]; constructor].
  destruct (files st !! upload_name f) as [src|] eqn:Hread.
  - destruct (decide (src = "")) as [->|Hne].
    { rewrite (process_file_empty w f st Hread). intros [= <- _]. constructor. }
    rewrite (process_file_steps w f src st Hread Hne).
    destruct (run_cppcheck w src (upload_name f) st) as [[issues|e|c] st1]; [|done..].
    destruct (build_prompt src (upload_name f) issues) as [prompt|].
    + destruct (predict_patch w prompt st1) as [[patch|e|c] st2];
        [intros [= <- _]; constructor..|done].
    + intros [= <- _]. constructor.
  - rewrite (process_file_unreadable w f st Hread). intros [= <- _]. constructor.
Qed.

End Pipeline.

(** C2, as stated, fails on the code: in an installation without
    [cppcheck], [process_file] on a readable, non-empty upload returns no
    pair at all; it ends in [sys.exit(1)]. *)
Lemma missing_tool_run_returns_no_pair :
  process_file Sample.no_tool (Some Sample.a_c) (Sample.disk "int x;")
  = (SystemExit 1,
     mkState (files (Sample.disk "int x;"))
       [Stderr "Error: `cppcheck` not found. Please install it and retry."]).
Proof. vm_compute. reflexivity. Qed.

(** C2, amended.  Whatever [process_file] returns is the pair of one of its
    six terminal paths: it has a status message, and it carries a patch
    exactly when the status is the success status, so the paths of a
    missing, unreadable or empty file, of an analysis without findings and
    of a failed generation all return no patch.  Once the analysis has
    returned its findings, [process_file] does return such a pair, whatever
    the model and the logging do.  Without the analyzer, a run on a
    readable, non-empty upload ends the process with exit status 1 and
    returns nothing. *)
Theorem process_file_result_invariant (w : World) (file_obj : option upload)
    (st : state) :
  (forall r st', process_file w file_obj st = (Return r, st') ->
     terminal r /\ well_formed r
     /\ ((forall patch, r <> patch_generated patch) -> snd r = None))
  /\ (forall f src issues st1,
        file_obj = Some f -> files st !! upload_name f = Some src -> src <> "" ->
        run_cppcheck w src (upload_name f) st = (Return issues, st1) ->
        exists r st', process_file w file_obj st = (Return r, st') /\ well_formed r)
  /\ (which w "cppcheck" = None ->
      forall f src,
        file_obj = Some f -> files st !! upload_name f = Some src -> src <> "" ->
        exists st', process_file w file_obj st = (SystemExit 1, st')).
Proof.
  split; [|split].
  - intros r st' Hrun.
    pose proof (process_file_returns_terminal w file_obj st r st' Hrun) as Ht.
    split; [done|]. split; [by apply terminal_well_formed|].
    by apply terminal_patch_None.
  - intros f src issues st1 -> Hread Hne Hrun.
    assert (Hret : exists r st', process_file w (Some f) st = (Return r, st')).
    { rewrite (process_file_steps w f src st Hread Hne), Hrun.
      destruct (build_prompt src (upload_name f) issues) as [prompt|];
        [|by eexists _, _].
      destruct (predict_patch w prompt st1) as [[patch|e|c] st2] eqn:Hp;
        [by eexists _, _..|].
      by destruct (predict_patch_no_exit w prompt st1 c st2). }
    destruct Hret as (r & st' & Hret). exists r, st'. split; [done|].
    apply terminal_well_formed. by eapply process_file_returns_terminal.
  - intros Hw f src -> Hread Hne.
    destruct (process_file_missing_tool w f src st Hw Hread Hne) as (st' & Hrun & _).
    by exists st'.
Qed.

Lemma process_file_result_invariant_witness :
  let run := process_file Sample.world (Some Sample.a_c) (Sample.disk "int x;") in
  run = (Return ("Patch generated below:", Some "--- a.c"), snd run)
  /\ well_formed ("Patch generated below:", Some "--- a.c").
Proof.
  intros run.
  assert (Hrun : run = (Return ("Patch generated below:", Some "--- a.c"), snd run)).
  { vm_compute. reflexivity. }
  split; [exact Hrun|].
  exact (proj1 (proj2 (proj1 (process_file_result_invariant Sample.world
                                (Some Sample.a_c) (Sample.disk "int x;"))
                         _ _ Hrun))).
Defined.

(** An analyzer report without [error] elements gives no findings. *)
Lemma run_cppcheck_no_error_elements (w : World) (source_code filename : string)
    (st : state) (root : ET.Element) :
  which w "cppcheck" <> None ->
  ET_parse w (report w source_code filename st) = inl root ->
  ET.findall_descendants root "error" = [] ->
  run_cppcheck w source_code filename st
  = (Return [],
     mkState (files_after_run w source_code filename st)
       (trace st ++ [Subprocess (analyzer_cmd w filename st)])).
Proof.
  intros Hw Hp Hnone.
  rewrite (run_cppcheck_parsed w source_code filename st root Hw Hp).
  by rewrite Hnone.
Qed.

(** C3.  [build_prompt] returns [None] on the empty list of findings.  When
    the analysis of a readable, non-empty upload yields no finding,
    [process_file] returns the fixed status [No MISRA violations found.]
    with no patch, in the state the analysis left: the model has not been
    called.  This is the case in particular when the report of the analyzer
    has no [error] element. *)
Theorem no_findings_short_circuit (w : World) (f : upload) (src : string)
    (st : state) :
  files st !! upload_name f = Some src ->
  src <> "" ->
  build_prompt src (upload_name f) [] = None
  /\ (forall st1,
        run_cppcheck w src (upload_name f) st = (Return [], st1) ->
        process_file w (Some f) st = (Return ("No MISRA violations found.", None), st1)
        /\ model_calls (trace st1) = model_calls (trace st))
  /\ (forall root,
        which w "cppcheck" <> None ->
        ET_parse w (report w src (upload_name f) st) = inl root ->
        ET.findall_descendants root "error" = [] ->
        exists st1,
          process_file w (Some f) st = (Return ("No MISRA violations found.", None), st1)
          /\ model_calls (trace st1) = model_calls (trace st)).
Proof.
  intros Hread Hne.
  assert (Hshort : forall st1,
            run_cppcheck w src (upload_name f) st = (Return [], st1) ->
            process_file w (Some f) st = (Return ("No MISRA violations found.", None), st1)
            /\ model_calls (trace st1) = model_calls (trace st)).
  { intros st1 Hrun. split.
    - rewrite (process_file_steps w f src st Hread Hne). by rewrite Hrun.
    - destruct (run_cppcheck_cases w src (upload_name f) st)
        as [[_ (st' & Hrun' & _)]|[_ (r & st' & Hrun' & _ & _ & Hm)]];
        rewrite Hrun in Hrun'; by simplify_eq. }
  split; [reflexivity|]. split; [exact Hshort|].
  intros root Hw Hp Hnone. eexists. apply Hshort.
  by apply (run_cppcheck_no_error_elements w src (upload_name f) st root).
Qed.

Lemma no_findings_short_circuit_witness :
  let src := "int main(void) { return 0; }" in
  files (Sample.disk src) !! upload_name Sample.a_c = Some src
  /\ src <> ""
  /\ ET.findall_descendants Sample.root_clean "error" = []
  /\ exists st1,
       process_file Sample.world (Some Sample.a_c) (Sample.disk src)
       = (Return ("No MISRA violations found.", None), st1)
       /\ model_calls (trace st1) = model_calls (trace (Sample.disk src)).
Proof.
  intros src.
  assert (Hread : files (Sample.disk src) !! upload_name Sample.a_c = Some src)
    by reflexivity.
  assert (Hne : src <> "") by discriminate.
  split; [exact Hread|]. split; [exact Hne|]. split; [reflexivity|].
  apply (proj2 (proj2 (no_findings_short_circuit Sample.world Sample.a_c src
                         (Sample.disk src) Hread Hne)) Sample.root_clean).
  - discriminate.
  - vm_compute. reflexivity.
  - reflexivity.
Defined.

(** C4.  When the call of the model raises, on a request that got as far as
    a prompt, [process_file] returns the failure status made of the message
    of the exception, and no patch: the exception is caught by
    [predict_patch], written to the standard error, raised again and caught
    by [process_file], which is all that happens after the call. *)
Theorem model_failure_is_reported (w : World) (f : upload) (src : string)
    (st st1 : state) (issues : list issue) (prompt : string) (e : exception) :
  files st !! upload_name f = Some src ->
  src <> "" ->
  run_cppcheck w src (upload_name f) st = (Return issues, st1) ->
  build_prompt src (upload_name f) issues = Some prompt ->
  llm w prompt 512 ["[INST]"] false = inr e ->
  process_file w (Some f) st
  = (Return ("An error occurred during local model inference: " +:+ exc_str e, None),
     mkState (files st1) (trace st1 ++ [model_call prompt; inference_error e])).
Proof.
  intros Hread Hne Hrun Hprompt Hllm.
  rewrite (process_file_steps w f src st Hread Hne), Hrun, Hprompt.
  rewrite predict_patch_cases, Hllm. reflexivity.
Qed.

Lemma model_failure_is_reported_witness :
  exists st',
    process_file Sample.model_down (Some Sample.a_c) (Sample.disk "int x;")
    = (Return ("An error occurred during local model inference: out of memory", None), st').
Proof.
  eexists.
  refine (model_failure_is_reported Sample.model_down Sample.a_c "int x;"
            (Sample.disk "int x;")
            (snd (run_cppcheck Sample.model_down "int x;" "/uploads/a.c"
                    (Sample.disk "int x;")))
            [Sample.example_finding]
            (rendered "int x;" "/uploads/a.c" [Sample.example_finding])
            (mkException (OtherException "RuntimeError") "out of memory")
            _ _ _ _ _).
  - reflexivity.
  - discriminate.
  - vm_compute. reflexivity.
  - vm_compute. reflexivity.
  - reflexivity.
Defined.

(** C10, as stated, fails on the code: the model returns the completion
    [--- a.c], the call of [wandb.log] that follows in the same [try]
    raises, and [process_file] returns the failure status and no patch. *)
Lemma logging_failure_hides_the_completion :
  let prompt := rendered "int x;" "/uploads/a.c" [Sample.example_finding] in
  let run := process_file Scenario.log_down (Some Sample.a_c) (Sample.disk "int x;") in
  build_prompt "int x;" "/uploads/a.c" [Sample.example_finding] = Some prompt
  /\ llm Scenario.log_down prompt 512 ["[INST]"] false = inl ["--- a.c"]
  /\ fst run
     = Return ("An error occurred during local model inference: You must call wandb.init() before wandb.log()",
               None)
  /\ model_calls (trace (snd run)) = [Llm prompt 512 ["[INST]"] false].
Proof. vm_compute. repeat split. Qed.

(** C10, amended.  When the model returns a response, and the call of
    [wandb.log] that follows raises nothing, [process_file] returns the
    success status together with the text of the first choice of the
    response, unchanged and unchecked; an empty completion therefore gives
    the success status with the empty string as patch, not [None].  Nothing
    happens after the call but the logging of the prompt and the text. *)
Theorem completion_is_returned_unchanged (w : World) (f : upload) (src : string)
    (st st1 : state) (issues : list issue) (prompt text : string)
    (rest : list string) :
  files st !! upload_name f = Some src ->
  src <> "" ->
  run_cppcheck w src (upload_name f) st = (Return issues, st1) ->
  build_prompt src (upload_name f) issues = Some prompt ->
  llm w prompt 512 ["[INST]"] false = inl (text :: rest) ->
  wandb_log w prompt text = None ->
  process_file w (Some f) st
  = (Return ("Patch generated below:", Some text),
     mkState (files st1) (trace st1 ++ [model_call prompt; WandbLog prompt text])).
Proof.
  intros Hread Hne Hrun Hprompt Hllm Hlog.
  rewrite (process_file_steps w f src st Hread Hne), Hrun, Hprompt.
  by rewrite predict_patch_cases, Hllm, Hlog.
Qed.

Lemma completion_is_returned_unchanged_witness :
  llm Sample.model_silent (rendered "int x;" "/uploads/a.c" [Sample.example_finding])
    512 ["[INST]"] false = inl [""]
  /\ exists st2,
       process_file Sample.model_silent (Some Sample.a_c) (Sample.disk "int x;")
       = (Return ("Patch generated below:", Some ""), st2).
Proof.
  split; [reflexivity|]. eexists.
  refine (completion_is_returned_unchanged Sample.model_silent Sample.a_c "int x;"
            (Sample.disk "int x;")
            (snd (run_cppcheck Sample.model_silent "int x;" "/uploads/a.c"
                    (Sample.disk "int x;")))
            [Sample.example_finding]
            (rendered "int x;" "/uploads/a.c" [Sample.example_finding])
            "" []
            _ _ _ _ _ _).
  - reflexivity.
  - discriminate.
  - vm_compute. reflexivity.
  - vm_compute. reflexivity.
  - reflexivity.
  - reflexivity.
Defined.

(** ** C8: the findings of a report *)




(** ** C7: the lines of the summary *)

(** C7, as stated, fails on the code: for the finding of the example the
    text [a.c:1:1 style: no previous declaration (misra-c2012-8.4)] is not a
    line of the rendered prompt; the line of the finding starts with a dash
    and a space. *)
Lemma example_line_is_bulleted :
  let i := Sample.example_finding in
  let prompt := default "" (build_prompt "int x;" "a.c" [i]) in
  finding_text i = "a.c:1:1 style: no previous declaration (misra-c2012-8.4)"
  /\ build_prompt "int x;" "a.c" [i] = Some prompt
  /\ has_line (finding_text i) prompt = false
  /\ summary [i] = "- a.c:1:1 style: no previous declaration (misra-c2012-8.4)"
  /\ has_line "- a.c:1:1 style: no previous declaration (misra-c2012-8.4)" prompt = true.
Proof. vm_compute. repeat split. Qed.

(** C7, amended.  For a non-empty list of findings the prompt is the
    opening, the summary and the closing, each on lines of its own, and the
    summary is made of one entry per finding, in the order of the findings,
    joined by line feeds, each entry being a dash, a space and
    [file:line:column severity: message (rule_id)].  The entries are exactly
    the lines of the summary, one line per finding, whenever no entry has a
    line feed inside. *)
Theorem summary_has_one_bulleted_line_per_finding
    (source_code filename : string) (issues : list issue) :
  issues <> [] ->
  build_prompt source_code filename issues
  = Some (opening source_code filename +:+ Py.nl +:+ summary issues +:+ Py.nl +:+ closing)
  /\ summary issues = Py.join Py.nl (map (fun i => "- " +:+ finding_text i) issues)
  /\ List.length (map (fun i => "- " +:+ finding_text i) issues) = List.length issues
  /\ (Forall (fun i => single_line ("- " +:+ finding_text i)) issues ->
      Py.split Py.LF (summary issues) = map (fun i => "- " +:+ finding_text i) issues
      /\ List.length (Py.split Py.LF (summary issues)) = List.length issues).
Proof.
  intros Hne.
  split; [by apply build_prompt_rendered|]. split; [reflexivity|].
  split; [apply length_map|]. intros Hlines.
  assert (Hsplit : Py.split Py.LF (summary issues) = map summary_line issues).
  { apply split_join.
    - by destruct issues.
    - by apply Forall_map. }
  split; [exact Hsplit|]. by rewrite Hsplit, length_map.
Qed.

Lemma summary_has_one_bulleted_line_per_finding_witness :
  let i := Sample.example_finding in
  [i] <> []
  /\ Forall (fun i => single_line ("- " +:+ finding_text i)) [i]
  /\ Py.split Py.LF (summary [i])
     = ["- a.c:1:1 style: no previous declaration (misra-c2012-8.4)"]
  /\ has_line "- a.c:1:1 style: no previous declaration (misra-c2012-8.4)"
       (opening "int x;" "a.c" +:+ Py.nl +:+ summary [i] +:+ Py.nl +:+ closing) = true.
Proof.
  intros i.
  assert (Hne : [i] <> []) by discriminate.
  assert (Hlines : Forall (fun i => single_line ("- " +:+ finding_text i)) [i]).
  { repeat constructor. }
  split; [exact Hne|]. split; [exact Hlines|]. split; [|reflexivity].
  exact (proj1 (proj2 (proj2 (proj2 (summary_has_one_bulleted_line_per_finding
                                       "int x;" "a.c" [i] Hne))) Hlines)).
Defined.

(** ** C9: the prompt as a function of its arguments *)

(** C9.  [build_prompt] reads nothing but its three arguments: equal
    arguments give the same prompt, byte for byte; the prompt is [None] for
    no findings and otherwise the fixed text [rendered] around the source
    and the summary; and of the file name only the answer to
    [endswith(".c")] enters it. *)
Theorem build_prompt_is_pure (source_code filename : string) (issues : list issue) :
  (forall source_code' filename' issues',
     source_code = source_code' -> filename = filename' -> issues = issues' ->
     build_prompt source_code filename issues
     = build_prompt source_code' filename' issues')
  /\ build_prompt source_code filename issues
     = match issues with
       | [] => None
       | _ :: _ => Some (rendered source_code filename issues)
       end
  /\ (forall filename',
        Py.endswith filename ".c" = Py.endswith filename' ".c" ->
        build_prompt source_code filename issues
        = build_prompt source_code filename' issues).
Proof.
  split; [|split].
  - by intros ??? <- <- <-.
  - destruct issues as [|i issues]; [reflexivity|].
    by apply build_prompt_rendered.
  - intros filename' Hc.
    destruct issues as [|i issues]; [reflexivity|].
    rewrite !build_prompt_rendered by done.
    unfold rendered, opening, rule_set. by rewrite Hc.
Qed.

Lemma build_prompt_is_pure_witness :
  Py.endswith "a.c" ".c" = Py.endswith "/tmp/upload/b.c" ".c"
  /\ build_prompt "int x;" "a.c" [Sample.example_finding]
     = build_prompt "int x;" "/tmp/upload/b.c" [Sample.example_finding].
Proof.
  split; [reflexivity|].
  apply (proj2 (proj2 (build_prompt_is_pure "int x;" "a.c" [Sample.example_finding]))).
  reflexivity.
Defined.

(** * Further properties of the code *)

(** ** The file name: language flags, rule set, accepted extensions *)

Lemma string_length_append (s t : string) :
  String.length (s +:+ t) = String.length s + String.length t.
Proof.
  induction s as [|a s IH]; [reflexivity|].
  rewrite append_cons. cbn [String.length]. by rewrite IH.
Qed.

(** [endswith] answers whether the string is something followed by the
    suffix. *)
Lemma endswith_spec (s suffix : string) :
  Py.endswith s suffix = true <-> exists stem, s = stem +:+ suffix.
Proof.
  induction s as [|a s IH]; cbn [Py.endswith].
  - destruct (String.eqb "" suffix) eqn:E.
    + apply String.eqb_eq in E as <-. split; [|done]. by exists "".
    + split; [done|]. intros [stem Hs].
      destruct stem; [|by rewrite append_cons in Hs].
      rewrite append_nil_l in Hs. subst suffix. by rewrite String.eqb_refl in E.
  - destruct (String.eqb (String a s) suffix) eqn:E.
    + apply String.eqb_eq in E as <-. split; [|done]. by exists "".
    + rewrite IH. split.
      * intros [stem ->]. by exists (String a stem).
      * intros [stem Hs]. destruct stem as [|b stem].
        -- rewrite append_nil_l in Hs. subst suffix. by rewrite String.eqb_refl in E.
        -- rewrite append_cons in Hs. injection Hs as _ ->. by exists stem.
Qed.

(** In front of an ending at least as long as the suffix, the stem does not
    matter. *)
Lemma endswith_append (stem ending suffix : string) :
  String.length suffix <= String.length ending ->
  Py.endswith (stem +:+ ending) suffix = Py.endswith ending suffix.
Proof.
  intros Hlen. induction stem as [|a stem IH]; [reflexivity|].
  rewrite append_cons. cbn [Py.endswith].
  destruct (String.eqb (String a (stem +:+ ending)) suffix) eqn:E; [|exact IH].
  apply String.eqb_eq in E. subst suffix.
  cbn [String.length] in Hlen. rewrite string_length_append in Hlen. lia.
Qed.

(** X7.  The flags that [run_cppcheck] passes to the analyzer and the rule
    set and expert that [build_prompt] names go together: for a name ending
    in [.c] they are the C flags, [MISRA C:2012] and [C expert], for every
    other name the C++ flags, [MISRA C++:2012] and [C++ expert]. *)
Theorem language_flags_agree_with_rule_set (filename : string) :
  (dot_c filename
   /\ lang_args filename = c_flags
   /\ rule_set filename = "MISRA C:2012"
   /\ expert (rule_set filename) = "C expert")
  \/ (~ dot_c filename
      /\ lang_args filename = cpp_flags
      /\ rule_set filename = "MISRA C++:2012"
      /\ expert (rule_set filename) = "C++ expert").
Proof.
  unfold lang_args, rule_set, dot_c.
  destruct (Py.endswith filename ".c") eqn:E.
  - left. split; [by apply endswith_spec|done].
  - right. split; [|done]. intros H. apply endswith_spec in H. congruence.
Qed.

(** X8.  Of the extensions the upload widget accepts, [.c] alone is
    analysed and fixed as C; [.cpp], [.h] and [.hpp] files, whatever their
    stem, get the C++ flags and the C++ rule set. *)
Theorem only_dot_c_is_analysed_as_c (stem ext : string) :
  In ext file_types ->
  (ext = ".c"
   /\ lang_args (stem +:+ ext) = c_flags
   /\ rule_set (stem +:+ ext) = "MISRA C:2012")
  \/ (ext <> ".c"
      /\ lang_args (stem +:+ ext) = cpp_flags
      /\ rule_set (stem +:+ ext) = "MISRA C++:2012").
Proof.
  intros Hext. unfold lang_args, rule_set.
  assert (Hends : Py.endswith (stem +:+ ext) ".c" = Py.endswith ext ".c").
  { apply endswith_append.
    cbn in Hext. destruct Hext as [<-|[<-|[<-|[<-|[]]]]]; cbn; lia. }
  rewrite Hends.
  cbn in Hext. destruct Hext as [<-|[<-|[<-|[<-|[]]]]]; cbn;
    first [by left | by right].
Qed.

Lemma only_dot_c_is_analysed_as_c_witness :
  In ".h" file_types
  /\ lang_args "include/queue.h" = cpp_flags
  /\ rule_set "include/queue.h" = "MISRA C++:2012".
Proof.
  assert (Hext : In ".h" file_types) by (cbn; tauto).
  split; [exact Hext|].
  destruct (only_dot_c_is_analysed_as_c "include/queue" ".h" Hext) as [[H _]|[_ H]].
  - discriminate H.
  - exact H.
Defined.

(** ** The prompt around the source *)

(** X15.  A prompt, when there is one, starts with the instruction
    delimiter [[INST]], which is also the stop sequence given to the model,
    ends with [[/INST]], and holds the source text between two code fences
    exactly as it was uploaded: [strip] reaches neither the source nor the
    summary, even when the source is nothing but white space. *)
Theorem prompt_frames_the_source (source_code filename : string) (issues : list issue) :
  issues <> [] ->
  exists prompt before after,
    build_prompt source_code filename issues = Some prompt
    /\ prompt = before +:+ "```" +:+ Py.nl +:+ source_code +:+ Py.nl +:+ "```"
                  +:+ Py.nl +:+ after
    /\ String.prefix "[INST] " prompt = true
    /\ Py.endswith prompt "[/INST]" = true.
Proof.
  intros Hne.
  exists (rendered source_code filename issues),
    ("[INST] You are a " +:+ expert (rule_set filename) +:+ " specializing in "
       +:+ rule_set filename +:+ " compliance." +:+ Py.nl +:+ "Here is the source file:"
       +:+ Py.nl),
    ("The static analyzer reported the following violations:" +:+ Py.nl
       +:+ summary issues +:+ Py.nl +:+ closing).
  split; [by apply build_prompt_rendered|]. split; [|split].
  - unfold rendered, opening. by rewrite !append_assoc.
  - reflexivity.
  - apply endswith_spec.
    exists (opening source_code filename +:+ Py.nl +:+ summary issues +:+ Py.nl
              +:+ "Produce a unified diff patch that fixes all violations. For each change, include a oneâ€sentence rationale referencing the violated rule number."
              +:+ Py.nl +:+ "Only return the diff. No extra commentary. ").
    unfold rendered, closing. by rewrite !append_assoc.
Qed.

Lemma prompt_frames_the_source_witness :
  exists prompt before after,
    build_prompt "  " "a.c" [Sample.example_finding] = Some prompt
    /\ prompt = before +:+ "```" +:+ Py.nl +:+ "  " +:+ Py.nl +:+ "```" +:+ Py.nl +:+ after
    /\ String.prefix "[INST] " prompt = true
    /\ Py.endswith prompt "[/INST]" = true.
Proof.
  apply (prompt_frames_the_source "  " "a.c" [Sample.example_finding]).
  discriminate.
Defined.

(** ** Findings with missing attributes *)

(** X14.  An [error] element is kept as soon as it has a [location] child,
    whatever attributes are there: each attribute that is missing becomes
    [None] in the finding and is printed as the word [None] in the summary,
    so an element and a location without any attribute give the line
    [- None:None:None None: None (None)]. *)
Theorem missing_attributes_print_None (error_element location : ET.Element) :
  ET.find error_element "location" = Some location ->
  ET.attrib error_element = ∅ ->
  ET.attrib location = ∅ ->
  extract_issues [error_element] [] = [mkIssue None None None None None None None]
  /\ summary (extract_issues [error_element] []) = "- None:None:None None: None (None)".
Proof.
  intros Hfind He Hl.
  assert (Hissues : extract_issues [error_element] []
                    = [mkIssue None None None None None None None]).
  { cbn [extract_issues]. rewrite Hfind. unfold ET.get. rewrite He, Hl.
    by rewrite !lookup_empty. }
  by rewrite Hissues.
Qed.

Lemma missing_attributes_print_None_witness :
  ET.find Scenario.bare_error "location" = Some Scenario.bare_location
  /\ summary (extract_issues [Scenario.bare_error] [])
     = "- None:None:None None: None (None)".
Proof.
  split; [reflexivity|].
  exact (proj2 (missing_attributes_print_None Scenario.bare_error Scenario.bare_location
                  eq_refl eq_refl eq_refl)).
Defined.

(** ** Start-up *)

(** X1.  The start-up code ends normally exactly when the W&B login, made
    only with a non-empty [WANDB_API_KEY], raises nothing, the weights file
    exists and the model loads.  A missing weights file and a failed load
    exit with status 1; an exception of the login is the only one that
    escapes; whether [wandb.init] fails makes no difference to the outcome.
    Start-up leaves the file system alone and calls neither the analyzer nor
    the model. *)
Theorem startup_outcome (w : World) (st : state) :
  fst (startup w st)
  = match login w with
    | Some e => Raise e
    | None =>
        if path_exists w LOCAL_MODEL_PATH
        then match Llama w LOCAL_MODEL_PATH 2048 40 with
             | None => Return tt
             | Some _ => SystemExit 1
             end
        else SystemExit 1
    end
  /\ files (snd (startup w st)) = files st
  /\ analyzer_calls (trace (snd (startup w st))) = analyzer_calls (trace st)
  /\ model_calls (trace (snd (startup w st))) = model_calls (trace st).
Proof.
  unfold startup, login, analyzer_calls, model_calls. unfold_M.
  destruct (getenv w "WANDB_API_KEY") as [key|];
    [destruct (Py.falsy key); [|destruct (wandb_login w key)]|];
    destruct (wandb_init w); cbn;
    destruct (path_exists w LOCAL_MODEL_PATH); cbn;
    try destruct (Llama w LOCAL_MODEL_PATH 2048 40); cbn;
    rewrite ?List.filter_app; cbn; rewrite ?app_nil_r; done.
Qed.

(** ** An upload that cannot be read *)

(** X2.  When the path of the upload cannot be opened, [process_file]
    returns the status [Failed to read file:] followed by the message of the
    error raised, and no patch; nothing else has happened: no temporary
    file, no call of the analyzer or of the model, no output. *)
Theorem unreadable_upload_is_reported (w : World) (f : upload) (st : state) :
  files st !! upload_name f = None ->
  exists e,
    open_read (upload_name f) st = (Raise e, st)
    /\ process_file w (Some f) st
       = (Return ("Failed to read file: " +:+ exc_str e, None), st).
Proof.
  intros Hread. eexists. split.
  - unfold open_read. by rewrite Hread.
  - by rewrite (process_file_unreadable w f st Hread).
Qed.

Lemma unreadable_upload_is_reported_witness :
  files (Sample.disk "int x;") !! "/uploads/b.c" = None
  /\ exists e,
       open_read "/uploads/b.c" (Sample.disk "int x;") = (Raise e, Sample.disk "int x;")
       /\ process_file Sample.world (Some (mkUpload "/uploads/b.c")) (Sample.disk "int x;")
          = (Return ("Failed to read file: " +:+ exc_str e, None), Sample.disk "int x;").
Proof.
  split; [reflexivity|].
  exact (unreadable_upload_is_reported Sample.world (mkUpload "/uploads/b.c")
           (Sample.disk "int x;") eq_refl).
Defined.

(** ** What can go wrong after the model has answered *)

(** The files are what the analysis left, whatever [predict_patch] does. *)
Lemma predict_patch_files (w : World) (prompt : string) (st : state) :
  files (snd (predict_patch w prompt st)) = files st.
Proof.
  rewrite predict_patch_cases.
  destruct (llm w prompt 512 ["[INST]"] false) as [[|text rest]|e]; [done| |done].
  by destruct (wandb_log w prompt text).
Qed.

(** X3.  The call of [wandb.log] sits in the same [try] as the call of the
    model: when it raises, the completion the model has just returned is
    dropped, and [process_file] returns the failure status with the message
    of the logging error and no patch. *)
Theorem telemetry_failure_loses_the_patch (w : World) (f : upload) (src : string)
    (st st1 : state) (issues : list issue) (prompt text : string) (rest : list string)
    (e : exception) :
  files st !! upload_name f = Some src ->
  src <> "" ->
  run_cppcheck w src (upload_name f) st = (Return issues, st1) ->
  build_prompt src (upload_name f) issues = Some prompt ->
  llm w prompt 512 ["[INST]"] false = inl (text :: rest) ->
  wandb_log w prompt text = Some e ->
  process_file w (Some f) st
  = (Return ("An error occurred during local model inference: " +:+ exc_str e, None),
     mkState (files st1)
       (trace st1 ++ [model_call prompt; WandbLog prompt text; inference_error e])).
Proof.
  intros Hread Hne Hrun Hprompt Hllm Hlog.
  rewrite (process_file_steps w f src st Hread Hne), Hrun, Hprompt.
  by rewrite predict_patch_cases, Hllm, Hlog.
Qed.

Lemma telemetry_failure_loses_the_patch_witness :
  llm Scenario.log_down (rendered "int x;" "/uploads/a.c" [Sample.example_finding])
    512 ["[INST]"] false = inl ["--- a.c"]
  /\ exists st',
       process_file Scenario.log_down (Some Sample.a_c) (Sample.disk "int x;")
       = (Return ("An error occurred during local model inference: You must call wandb.init() before wandb.log()",
                  None), st').
Proof.
  split; [reflexivity|]. eexists.
  refine (telemetry_failure_loses_the_patch Scenario.log_down Sample.a_c "int x;"
            (Sample.disk "int x;")
            (snd (run_cppcheck Scenario.log_down "int x;" "/uploads/a.c"
                    (Sample.disk "int x;")))
            [Sample.example_finding]
            (rendered "int x;" "/uploads/a.c" [Sample.example_finding])
            "--- a.c" []
            (mkException (OtherException "Error")
               "You must call wandb.init() before wandb.log()")
            _ _ _ _ _ _).
  - reflexivity.
  - discriminate.
  - vm_compute. reflexivity.
  - vm_compute. reflexivity.
  - reflexivity.
  - reflexivity.
Defined.

(** X4.  A response of the model without any choice makes
    [response["choices"][0]] raise [IndexError]; it is caught like an error
    of the model itself: [process_file] returns the failure status with
    [list index out of range] and no patch, and nothing is logged to W&B. *)
Theorem response_without_choices_is_reported (w : World) (f : upload) (src : string)
    (st st1 : state) (issues : list issue) (prompt : string) :
  files st !! upload_name f = Some src ->
  src <> "" ->
  run_cppcheck w src (upload_name f) st = (Return issues, st1) ->
  build_prompt src (upload_name f) issues = Some prompt ->
  llm w prompt 512 ["[INST]"] false = inl [] ->
  exists st',
    process_file w (Some f) st
    = (Return ("An error occurred during local model inference: list index out of range",
               None), st')
    /\ logged (trace st') = logged (trace st1).
Proof.
  intros Hread Hne Hrun Hprompt Hllm. eexists. split.
  - rewrite (process_file_steps w f src st Hread Hne), Hrun, Hprompt.
    by rewrite predict_patch_cases, Hllm.
  - cbn. unfold logged. rewrite List.filter_app. cbn. by rewrite app_nil_r.
Qed.

Lemma response_without_choices_is_reported_witness :
  llm Scenario.no_choices (rendered "int x;" "/uploads/a.c" [Sample.example_finding])
    512 ["[INST]"] false = inl []
  /\ exists st',
       process_file Scenario.no_choices (Some Sample.a_c) (Sample.disk "int x;")
       = (Return ("An error occurred during local model inference: list index out of range",
                  None), st')
       /\ logged (trace st')
          = logged (trace (snd (run_cppcheck Scenario.no_choices "int x;" "/uploads/a.c"
                                  (Sample.disk "int x;")))).
Proof.
  split; [reflexivity|].
  refine (response_without_choices_is_reported Scenario.no_choices Sample.a_c "int x;"
            (Sample.disk "int x;")
            (snd (run_cppcheck Scenario.no_choices "int x;" "/uploads/a.c"
                    (Sample.disk "int x;")))
            [Sample.example_finding]
            (rendered "int x;" "/uploads/a.c" [Sample.example_finding])
            _ _ _ _ _).
  - reflexivity.
  - discriminate.
  - vm_compute. reflexivity.
  - vm_compute. reflexivity.
  - reflexivity.
Defined.

(** X13.  A call of [predict_patch] sends the prompt and the completion to
    W&B exactly when the model returned a response with a first choice, and
    then sends them once; a call of [run_cppcheck] sends nothing. *)
Theorem telemetry_is_sent_on_success_only (w : World) :
  (forall prompt st,
     logged (trace (snd (predict_patch w prompt st)))
     = logged (trace st)
       ++ match llm w prompt 512 ["[INST]"] false with
          | inl (text :: _) => [WandbLog prompt text]
          | _ => []
          end)
  /\ (forall source_code filename st,
        logged (trace (snd (run_cppcheck w source_code filename st)))
        = logged (trace st)).
Proof.
  split.
  - intros prompt st. rewrite predict_patch_cases. unfold logged.
    destruct (llm w prompt 512 ["[INST]"] false) as [[|text rest]|e]; cbn;
      [|destruct (wandb_log w prompt text); cbn|];
      rewrite List.filter_app; cbn; by rewrite ?app_nil_r.
  - intros source_code filename st. unfold logged.
    destruct (which w "cppcheck") as [tool|] eqn:Hw.
    + assert (Hne : which w "cppcheck" <> None) by congruence.
      destruct (ET_parse w (report w source_code filename st)) as [root|e] eqn:Hp.
      * rewrite (run_cppcheck_parsed w source_code filename st root Hne Hp). cbn.
        rewrite List.filter_app. cbn. by rewrite app_nil_r.
      * destruct (process_or_parse_error (exc_cls e)) eqn:Hc.
        -- rewrite (run_cppcheck_report_error w source_code filename st e Hne Hp Hc).
           cbn. rewrite !List.filter_app. cbn. by rewrite !app_nil_r.
        -- rewrite (run_cppcheck_report_escapes w source_code filename st e Hne Hp Hc).
           cbn. rewrite !List.filter_app. cbn. by rewrite !app_nil_r.
    + rewrite (run_cppcheck_missing_tool w source_code filename st Hw). cbn.
      rewrite List.filter_app. cbn. by rewrite app_nil_r.
Qed.

(** ** The analyzer run *)



(** X6.  The exit status of the analyzer is never looked at: with the same
    output on the standard error, any exit statuses give the same result of
    [process_file] and the same final state. *)
Theorem exit_status_is_ignored (w : World)
    (rc : list string -> gmap string string -> Z) (file_obj : option upload)
    (st : state) :
  process_file (with_returncodes rc w) file_obj st = process_file w file_obj st.
Proof. reflexivity. Qed.

(** X9.  With the analyzer installed, a call of [run_cppcheck] starts it
    exactly once, with the fixed options, the flags of the language and, as
    its last argument, the temporary source file; when it starts, that file
    holds the source text given to the call, the upload itself is not on
    the command line, and what the process writes to its standard error is
    the content of the report file afterwards. *)
Theorem analyzer_runs_on_the_source_buffer (w : World) (source_code filename : string)
    (st : state) :
  which w "cppcheck" <> None ->
  let cmd := ["cppcheck"; "--enable=all"; "--xml"] ++ lang_args filename
             ++ [src_file_path w st] in
  let st' := snd (run_cppcheck w source_code filename st) in
  analyzer_calls (trace st') = analyzer_calls (trace st) ++ [Subprocess cmd]
  /\ files_before_run w source_code st !! src_file_path w st = Some source_code
  /\ files st' !! xml_file_path w st
     = Some (stderr_text (subprocess_run w cmd (files_before_run w source_code st))).
Proof.
  intros Hw cmd st'. subst st'.
  assert (Hst : exists r tail,
             run_cppcheck w source_code filename st
             = (r, mkState (files_after_run w source_code filename st)
                     (trace st ++ Subprocess cmd :: tail))
             /\ analyzer_calls tail = []).
  { destruct (ET_parse w (report w source_code filename st)) as [root|e] eqn:Hp.
    - eexists _, []. split; [|reflexivity].
      by rewrite (run_cppcheck_parsed w source_code filename st root Hw Hp).
    - destruct (process_or_parse_error (exc_cls e)) eqn:Hc.
      + eexists _, _. split.
        * by rewrite (run_cppcheck_report_error w source_code filename st e Hw Hp Hc).
        * reflexivity.
      + eexists _, []. split; [|reflexivity].
        by rewrite (run_cppcheck_report_escapes w source_code filename st e Hw Hp Hc). }
  destruct Hst as (r & tail & -> & Htail). cbn [snd trace files]. split; [|split].
  - unfold analyzer_calls in *. rewrite !List.filter_app. cbn. by rewrite Htail.
  - apply lookup_insert_eq.
  - apply lookup_insert_eq.
Qed.

Lemma analyzer_runs_on_the_source_buffer_witness :
  which Sample.world "cppcheck" <> None
  /\ analyzer_calls (trace (snd (run_cppcheck Sample.world "int x;" "a.cpp"
                                   (Sample.disk "int x;"))))
     = [Subprocess ["cppcheck"; "--enable=all"; "--xml"; "--std=c++17"; "--language=c++";
                    "--profile=misra-cpp-2012"; "/tmp/tmp0.c"]].
Proof.
  assert (Hw : which Sample.world "cppcheck" <> None) by discriminate.
  split; [exact Hw|].
  exact (proj1 (analyzer_runs_on_the_source_buffer Sample.world "int x;" "a.cpp"
                  (Sample.disk "int x;") Hw)).
Defined.

(** X16.  An exception of [ET.parse] that is neither a [ParseError] nor a
    [CalledProcessError], such as the [UnicodeDecodeError] of a report that
    is not UTF-8 text, is caught nowhere: it leaves [run_cppcheck] and,
    through it, [process_file], which returns no pair; the analyzer has run,
    nothing is written to the standard error, the model is not called, and
    the two temporary files stay behind. *)
Theorem report_read_failure_escapes (w : World) (f : upload) (src : string)
    (st : state) (e : exception) :
  which w "cppcheck" <> None ->
  files st !! upload_name f = Some src ->
  src <> "" ->
  ET_parse w (report w src (upload_name f) st) = inr e ->
  process_or_parse_error (exc_cls e) = false ->
  run_cppcheck w src (upload_name f) st
  = (Raise e,
     mkState (files_after_run w src (upload_name f) st)
       (trace st ++ [Subprocess (analyzer_cmd w (upload_name f) st)]))
  /\ process_file w (Some f) st
     = (Raise e,
        mkState (files_after_run w src (upload_name f) st)
          (trace st ++ [Subprocess (analyzer_cmd w (upload_name f) st)])).
Proof.
  intros Hw Hread Hne Hp Hc.
  pose proof (run_cppcheck_report_escapes w src (upload_name f) st e Hw Hp Hc) as Hrun.
  split; [exact Hrun|].
  by rewrite (process_file_steps w f src st Hread Hne), Hrun.
Qed.

Lemma report_read_failure_escapes_witness :
  exists e st',
    exc_cls e = OtherException "UnicodeDecodeError"
    /\ process_file Scenario.undecodable (Some Sample.a_c) (Sample.disk "int x;")
       = (Raise e, st')
    /\ files st' !! "/tmp/tmp0.c" = Some "int x;".
Proof.
  exists (mkException (OtherException "UnicodeDecodeError")
            "'utf-8' codec can't decode byte 0xff in position 0: invalid start byte").
  eexists. split; [reflexivity|]. split.
  - refine (proj2 (report_read_failure_escapes Scenario.undecodable Sample.a_c "int x;"
                     (Sample.disk "int x;") _ _ _ _ eq_refl eq_refl)).
    + discriminate.
    + reflexivity.
    + discriminate.
  - vm_compute. reflexivity.
Defined.

(** ** The file system across a request *)

(** A request leaves the file system as it was, or as the analysis of the
    upload left it. *)
Lemma process_file_files (w : World) (file_obj : option upload) (st : state) :
  files (snd (process_file w file_obj st)) = files st
  \/ exists src filename,
       files (snd (process_file w file_obj st)) = files_after_run w src filename st.
Proof.
  destruct file_obj as [f|]; [|by left].
  destruct (files st !! upload_name f) as [src|] eqn:Hread.
  - destruct (decide (src = "")) as [->|Hne].
    { left. by rewrite (process_file_empty w f st Hread). }
    rewrite (process_file_steps w f src st Hread Hne).
    destruct (run_cppcheck_cases w src (upload_name f) st)
      as [[_ (st1 & -> & Hf & _)]|[_ (r & st1 & -> & _ & Hf & _)]]; [by left|].
    right. exists src, (upload_name f).
    destruct r as [issues|e|c]; [|done..].
    destruct (build_prompt src (upload_name f) issues) as [prompt|]; [|done].
    pose proof (predict_patch_files w prompt st1) as Hp.
    destruct (predict_patch w prompt st1) as [[patch|e|c] st2]; cbn in *; congruence.
  - left. by rewrite (process_file_unreadable w f st Hread).
Qed.

Lemma files_after_run_other (w : World) (src filename : string) (st : state)
    (path : string) :
  path <> src_file_path w st ->
  path <> xml_file_path w st ->
  files_after_run w src filename st !! path = files st !! path.
Proof.
  intros Hs Hx. unfold files_after_run, files_before_run.
  by rewrite !lookup_insert_ne.
Qed.

Lemma names_are_free_distinct (w : World) (st : state) :
  names_are_free w st ->
  xml_file_path w st <> src_file_path w st /\ files st !! xml_file_path w st = None.
Proof.
  intros [Hs Hx].
  destruct (decide (xml_file_path w st = src_file_path w st)) as [E|Hne].
  - rewrite E in Hx. by rewrite lookup_insert_eq in Hx.
  - split; [done|]. by rewrite lookup_insert_ne in Hx.
Qed.

(** X10.  Whatever the request and however it ends, [process_file] writes
    to no path but those of its two temporary files; as these are new names,
    every file that was there before, the upload among them, is there
    afterwards with the content it had. *)
Theorem existing_files_are_preserved (w : World) (file_obj : option upload)
    (st : state) :
  (forall path,
     path <> src_file_path w st -> path <> xml_file_path w st ->
     files (snd (process_file w file_obj st)) !! path = files st !! path)
  /\ (names_are_free w st -> files st ⊆ files (snd (process_file w file_obj st))).
Proof.
  split.
  - intros path Hs Hx.
    destruct (process_file_files w file_obj st) as [->|(src & filename & ->)]; [done|].
    by apply files_after_run_other.
  - intros Hfree.
    destruct (names_are_free_distinct w st Hfree) as [Hne Hx]. destruct Hfree as [Hs _].
    destruct (process_file_files w file_obj st) as [->|(src & filename & ->)]; [done|].
    apply map_subseteq_spec. intros path text Hpath.
    rewrite files_after_run_other; [done|congruence..].
Qed.

Lemma existing_files_are_preserved_witness :
  names_are_free Sample.world (Sample.disk "int x;")
  /\ files (snd (process_file Sample.world (Some Sample.a_c) (Sample.disk "int x;")))
       !! "/uploads/a.c" = Some "int x;".
Proof.
  assert (Hfree : names_are_free Sample.world (Sample.disk "int x;")).
  { split; reflexivity. }
  split; [exact Hfree|].
  refine (lookup_weaken _ _ _ _ _
            (proj2 (existing_files_are_preserved Sample.world (Some Sample.a_c)
                      (Sample.disk "int x;")) Hfree)).
  reflexivity.
Defined.

(** X11.  With the analyzer installed, every call of [run_cppcheck] leaves
    the file system with exactly two files more than it found: nothing is
    ever removed, so the files of earlier requests pile up. *)
Theorem each_analysis_adds_two_files (w : World) (source_code filename : string)
    (st : state) :
  which w "cppcheck" <> None ->
  names_are_free w st ->
  size (files (snd (run_cppcheck w source_code filename st))) = size (files st) + 2.
Proof.
  intros Hw Hfree.
  destruct (names_are_free_distinct w st Hfree) as [Hne Hx]. destruct Hfree as [Hs _].
  destruct (run_cppcheck_cases w source_code filename st)
    as [[Hnone _]|[_ (r & st1 & Hrun & _ & Hf & _)]]; [done|].
  rewrite Hrun. cbn [snd]. rewrite Hf.
  unfold files_after_run, files_before_run.
  rewrite map_size_insert_Some; last first.
  { exists "". rewrite lookup_insert_ne by done. apply lookup_insert_eq. }
  rewrite map_size_insert_Some; last first.
  { exists "". rewrite lookup_insert_ne by done. apply lookup_insert_eq. }
  rewrite map_size_insert_None; last first.
  { by rewrite lookup_insert_ne. }
  rewrite map_size_insert_None by done. lia.
Qed.

Lemma each_analysis_adds_two_files_witness :
  let st1 := snd (run_cppcheck Sample.world "int x;" "a.c" (Sample.disk "int x;")) in
  names_are_free Sample.world st1
  /\ size (files (Sample.disk "int x;")) = 1
  /\ size (files st1) = 3
  /\ size (files (snd (run_cppcheck Sample.world "int x;" "a.c" st1))) = size (files st1) + 2.
Proof.
  intros st1.
  assert (Hfree : names_are_free Sample.world st1).
  { split; vm_compute; reflexivity. }
  split; [exact Hfree|]. split; [reflexivity|]. split; [vm_compute; reflexivity|].
  apply (each_analysis_adds_two_files Sample.world "int x;" "a.c" st1); [discriminate|].
  exact Hfree.
Defined.

(** ** The order of the calls in a request *)

(** X12.  Whenever [process_file] returns a pair for a readable, non-empty
    upload, it has called the analyzer exactly once, before anything else,
    and the analysis has returned its findings; after that it has called
    the model at most once: not at all when there was no finding, and
    otherwise once, with the rendered prompt, at most 512 tokens and the
    stop sequence [[INST]]. *)
Theorem pipeline_calls_in_order (w : World) (f : upload) (src : string)
    (st st' : state) (r : result) :
  files st !! upload_name f = Some src ->
  src <> "" ->
  process_file w (Some f) st = (Return r, st') ->
  exists issues tail,
    fst (run_cppcheck w src (upload_name f) st) = Return issues
    /\ trace st' = trace st ++ Subprocess (analyzer_cmd w (upload_name f) st) :: tail
    /\ analyzer_calls tail = []
    /\ model_calls tail
       = match issues with
         | [] => []
         | _ :: _ => [Llm (rendered src (upload_name f) issues) 512 ["[INST]"] false]
         end.
Proof.
  intros Hread Hne Hret.
  rewrite (process_file_steps w f src st Hread Hne) in Hret.
  destruct (which w "cppcheck") as [tool|] eqn:Htool; last first.
  { by rewrite (run_cppcheck_missing_tool w src (upload_name f) st Htool) in Hret. }
  assert (Hw : which w "cppcheck" <> None) by congruence.
  destruct (ET_parse w (report w src (upload_name f) st)) as [root|e] eqn:Hp.
  - rewrite (run_cppcheck_parsed w src (upload_name f) st root Hw Hp) in Hret |- *.
    destruct (extract_issues (ET.findall_descendants root "error") [])
      as [|i more] eqn:Hi.
    + cbn in Hret. injection Hret as <- <-. by exists [], [].
    + rewrite build_prompt_rendered in Hret by done.
      rewrite predict_patch_cases in Hret.
      destruct (llm w _ 512 ["[INST]"] false) as [[|text rest]|e];
        [|destruct (wandb_log w _ text)|]; cbn in Hret;
        injection Hret as <- <-; exists (i :: more); eexists;
        cbn; rewrite <- !app_assoc; cbn; done.
  - destruct (process_or_parse_error (exc_cls e)) eqn:Hc.
    + rewrite (run_cppcheck_report_error w src (upload_name f) st e Hw Hp Hc)
        in Hret |- *.
      cbn in Hret. injection Hret as <- <-. exists []. eexists. cbn. done.
    + by rewrite (run_cppcheck_report_escapes w src (upload_name f) st e Hw Hp Hc)
        in Hret.
Qed.

Lemma pipeline_calls_in_order_witness :
  let run := process_file Sample.world (Some Sample.a_c) (Sample.disk "int x;") in
  run = (Return ("Patch generated below:", Some "--- a.c"), snd run)
  /\ exists issues tail,
       fst (run_cppcheck Sample.world "int x;" "/uploads/a.c" (Sample.disk "int x;"))
       = Return issues
       /\ trace (snd run)
          = trace (Sample.disk "int x;")
            ++ Subprocess (analyzer_cmd Sample.world "/uploads/a.c" (Sample.disk "int x;"))
               :: tail
       /\ analyzer_calls tail = []
       /\ model_calls tail
          = match issues with
            | [] => []
            | _ :: _ => [Llm (rendered "int x;" "/uploads/a.c" issues) 512 ["[INST]"] false]
            end.
Proof.
  intros run.
  assert (Hrun : run = (Return ("Patch generated below:", Some "--- a.c"), snd run)).
  { vm_compute. reflexivity. }
  split; [exact Hrun|].
  apply (pipeline_calls_in_order Sample.world Sample.a_c "int x;" (Sample.disk "int x;")
           (snd run) ("Patch generated below:", Some "--- a.c")).
  - reflexivity.
  - discriminate.
  - exact Hrun.
Defined.
